(** * remindctl: the command-line dispatcher, embedded and verified

    The development follows the four source files of the package:

    - [remindctl/__main__.py]        : [main], the top-level router;
    - [remindctl/commands/add.py]     : [run_add_cmd], [add_parser];
    - [remindctl/commands/section.py] : [run_section_cmd], [section_parser];
    - [remindctl/commands/subtask.py] : [run_subtask_cmd], [subtask_parser].

    The handlers probe the file system, call [subprocess.run], print and
    raise.  They are embedded in a small trace-and-exception monad [M]: a
    computation yields the list of observable events it performed, in
    order, and either a value or the exception that ended it.  The file
    system, the external binaries and the parts of the Python library whose
    text is not in the repository are the fields of a record [World]. *)

From Stdlib Require Import ZArith Ascii String List.
From stdpp Require Import base option list strings gmap fin_maps.

Local Open Scope string_scope.
Local Open Scope Z_scope.
Local Open Scope list_scope.

(** ** [os.path] on POSIX paths *)

Module posixpath.

Definition is_sep (c : ascii) : bool := Ascii.eqb c "/"%char.

Fixpoint lstrip (p : ascii -> bool) (cs : list ascii) : list ascii :=
  match cs with
  | [] => []
  | c :: cs' => if p c then lstrip p cs' else cs
  end.

(** [s.rstrip(chars)] for the characters satisfying [p]. *)
Definition rstrip (p : ascii -> bool) (cs : list ascii) : list ascii :=
  rev (lstrip p (rev cs)).

(** [posixpath.dirname]: [head = p[:p.rfind('/') + 1]], then the trailing
    separators of [head] are stripped unless [head] is made of separators
    only. *)
Definition dirname (p : string) : string :=
  let head := rstrip (fun c => negb (is_sep c)) (list_ascii_of_string p) in
  match head with
  | [] => ""
  | _ :: _ =>
      if forallb is_sep head then string_of_list_ascii head
      else string_of_list_ascii (rstrip is_sep head)
  end.

Definition startswith_sep (s : string) : bool :=
  match s with
  | String c _ => is_sep c
  | EmptyString => false
  end.

Definition endswith_sep (s : string) : bool :=
  match rev (list_ascii_of_string s) with
  | c :: _ => is_sep c
  | [] => false
  end.

(** [posixpath.join(a, b)] with two arguments. *)
Definition join (a b : string) : string :=
  if startswith_sep b then b
  else if String.eqb a "" || endswith_sep a then a +:+ b
  else a +:+ "/" +:+ b.

End posixpath.

(** ** Python values, exceptions and events *)

(** The three handler functions a sub-parser can carry in its [func]
    default. *)
Inductive Handler : Type :=
| fn_run_add_cmd
| fn_run_section_cmd
| fn_run_subtask_cmd.

(** The values an attribute of an [argparse.Namespace] holds here. *)
Inductive PyVal : Type :=
| PyNone
| PyStr (s : string)
| PyFunc (h : Handler).

#[global] Instance Handler_eq_dec : EqDecision Handler.
Proof. solve_decision. Defined.

#[global] Instance PyVal_eq_dec : EqDecision PyVal.
Proof. solve_decision. Defined.

(** Python truthiness: [None] and the empty string are false. *)
Definition truthy (v : PyVal) : bool :=
  match v with
  | PyNone => false
  | PyStr s => negb (String.eqb s "")
  | PyFunc _ => true
  end.

(** An [argparse.Namespace]: attribute name to value. *)
Abbreviation Namespace := (gmap string PyVal).

Inductive Exn : Type :=
| FileNotFoundError (msg : string)
| ValueError (msg : string)
| AttributeError (name : string)
| TypeError (msg : string)
| OSError (msg : string)
| UnicodeDecodeError (msg : string)    (* a subclass of ValueError *)
| CalledProcessError (returncode : Z) (cmd : list string)
                     (stdout stderr : string)
| SystemExit (code : Z).

(** [except Exception] catches everything here but [SystemExit]. *)
Definition is_Exception (e : Exn) : bool :=
  match e with
  | SystemExit _ => false
  | _ => true
  end.

Inductive Stream : Type := Stdout | Stderr.

(** What [ArgumentParser.error] was called about. *)
Inductive ArgparseError : Type :=
| InvalidChoice (value : string).

Inductive Event : Type :=
| EExists (path : string)              (* os.path.exists(path) *)
| ESubprocessRun (cmd : list string)   (* subprocess.run(cmd, ...) *)
| EPrint (f : Stream) (text : string)  (* text written by print *)
| EPrintHelp                           (* parser.print_help() *)
| EPrintVersion (text : string)        (* the version action *)
| EParserError (e : ArgparseError).    (* usage and message on stderr *)

(** How a call of [subprocess.run(..., capture_output=True, text=True)]
    on a list of strings ends.  The child ran and exited, and what it
    wrote was decoded as text; or it could not be started; or it ran and
    exited but what it wrote is not valid text in the encoding of the
    locale, in which case [communicate] raises a [UnicodeDecodeError]
    before the return code is looked at; or an argument cannot be passed
    to [exec] at all. *)
Inductive RunOutcome : Type :=
| Exited (returncode : Z) (stdout stderr : string)
| NotFound (msg : string)      (* FileNotFoundError from exec *)
| NotStarted (msg : string)    (* any other OSError, e.g. permissions *)
| Undecodable (returncode : Z) (msg : string)
                               (* UnicodeDecodeError from communicate *)
| InvalidArgument (msg : string).
                               (* ValueError: embedded null byte *)

(** ** The trace-and-exception monad *)

Inductive Result (A : Type) : Type :=
| Ok (a : A)
| Raise (e : Exn).
Arguments Ok {A} a.
Arguments Raise {A} e.

Definition M (A : Type) : Type := (list Event * Result A)%type.

Definition ret {A} (a : A) : M A := ([], Ok a).
Definition raise {A} (e : Exn) : M A := ([], Raise e).
Definition tell (ev : Event) : M unit := ([ev], Ok tt).

Definition bind {A B} (m : M A) (k : A -> M B) : M B :=
  match m with
  | (t, Ok a) => let '(t', r) := k a in (t ++ t', r)
  | (t, Raise e) => (t, Raise e)
  end.

(** [try: m except ...: h e]; the handler [h] answers [None] for an
    exception no [except] clause matches. *)
Definition try_except {A} (m : M A) (h : Exn -> option (M A)) : M A :=
  match m with
  | (t, Ok a) => (t, Ok a)
  | (t, Raise e) =>
      match h e with
      | Some m' => let '(t', r) := m' in (t ++ t', r)
      | None => (t, Raise e)
      end
  end.

Notation "'let!' x ':=' m 'in' k" := (bind m (fun x => k))
  (at level 10, x name, m at level 100, k at level 200,
   format "'[v' 'let!'  x  ':='  m  'in' '/' k ']'").

Definition trace {A} (m : M A) : list Event := fst m.
Definition result {A} (m : M A) : Result A := snd m.

(** ** The world outside the package *)

Inductive PyModule : Type := add_py | section_py | subtask_py.

(** A sub-parser as the registration functions build it: the positional
    and optional arguments with their destination attribute, and the
    defaults given to [set_defaults]. *)
Record Argument : Type := {
  option_strings : list string;      (* empty for a positional *)
  dest : string;
  choices : option (list string)
}.

Record SubParser : Type := {
  arguments : list Argument;
  defaults : gmap string PyVal
}.

Record World : Type := {
  (** [os.path.abspath(__file__)] inside each command module *)
  abspath_file : PyModule -> string;
  (** [os.path.exists] *)
  path_exists : string -> bool;
  (** how [subprocess.run] on an argument vector ends *)
  run_outcome : list string -> RunOutcome;
  (** [str(e)] of a [subprocess.CalledProcessError] *)
  CalledProcessError_str : Z -> list string -> string;
  (** [argparse] on a command line whose first token is an option other
      than [--version], [-h] and [--help] spelled in full *)
  argparse_option_like : list string -> M Namespace;
  (** [argparse] on the tokens that follow a sub-command name: the
      attributes of the sub-parser's arguments, or an exit *)
  argparse_subcommand : SubParser -> list string -> M Namespace
}.

Definition exn_str (w : World) (e : Exn) : string :=
  match e with
  | FileNotFoundError msg => msg
  | ValueError msg => msg
  | AttributeError name =>
      "'Namespace' object has no attribute '" +:+ name +:+ "'"
  | TypeError msg => msg
  | OSError msg => msg
  | UnicodeDecodeError msg => msg
  | CalledProcessError rc cmd _ _ => CalledProcessError_str w rc cmd
  | SystemExit _ => ""
  end.

(** ** Primitive operations *)

Definition getattr (args : Namespace) (name : string) : M PyVal :=
  match args !! name with
  | Some v => ret v
  | None => raise (AttributeError name)
  end.

Definition os_path_exists (w : World) (path : string) : M bool :=
  let! _ := tell (EExists path) in
  ret (path_exists w path).

(** The line [print(text)] writes. *)
Definition line (text : string) : string :=
  text +:+ String "010"%char "".

(** [print(text)] and [print(text, end='')] on a stream. *)
Definition print (f : Stream) (text : string) : M unit :=
  tell (EPrint f (line text)).
Definition print_end_empty (f : Stream) (text : string) : M unit :=
  tell (EPrint f text).

Fixpoint as_argv (cmd : list PyVal) : option (list string) :=
  match cmd with
  | [] => Some []
  | PyStr s :: cmd' =>
      match as_argv cmd' with
      | Some l => Some (s :: l)
      | None => None
      end
  | _ :: _ => None
  end.

Record CompletedProcess : Type := {
  cp_stdout : string;
  cp_stderr : string
}.

(** [subprocess.run(cmd, capture_output=True, text=True, check=True)]:
    [check] is applied to a child that exited and whose output was
    decoded; a decoding error comes first, whatever the return code. *)
Definition subprocess_run (w : World) (cmd : list PyVal)
  : M CompletedProcess :=
  match as_argv cmd with
  | None => raise (TypeError "expected str, bytes or os.PathLike object")
  | Some argv =>
      let! _ := tell (ESubprocessRun argv) in
      match run_outcome w argv with
      | Exited rc out err =>
          if rc =? 0 then ret {| cp_stdout := out; cp_stderr := err |}
          else raise (CalledProcessError rc argv out err)
      | NotFound msg => raise (FileNotFoundError msg)
      | NotStarted msg => raise (OSError msg)
      | Undecodable _ msg => raise (UnicodeDecodeError msg)
      | InvalidArgument msg => raise (ValueError msg)
      end
  end.

(** [str(v)] as an f-string interpolates it. *)
Definition py_str (v : PyVal) : string :=
  match v with
  | PyNone => "None"
  | PyStr s => s
  | PyFunc _ => "<function>"
  end.

Import posixpath.

(** ** [remindctl/commands/add.py] *)

Definition run_add_cmd (w : World) (args : Namespace) : M unit :=
  let script_dir := dirname (abspath_file w add_py) in
  let project_root := dirname (dirname script_dir) in
  let reminderctl_path := join project_root "reminderctl" in
  let! found := os_path_exists w reminderctl_path in
  if negb found then
    raise (FileNotFoundError
             ("reminderctl binary not found at " +:+ reminderctl_path +:+ ". "
              +:+ "Make sure to compile reminderctl.swift first."))
  else
    let! title := getattr args "title" in
    let cmd_parts := [PyStr reminderctl_path; PyStr "add"; title] in
    let! section_id := getattr args "section_id" in
    let! cmd_parts :=
      (if truthy section_id then
         ret (cmd_parts ++ [PyStr "--section"; section_id])
       else
         let! list_id := getattr args "list_id" in
         if truthy list_id then
           ret (cmd_parts ++ [PyStr "--list"; list_id])
         else
           raise (ValueError "Either --section or --list must be specified"))
    in
    try_except
      (let! result := subprocess_run w cmd_parts in
       let! _ := print_end_empty Stdout (cp_stdout result) in
       if negb (String.eqb (cp_stderr result) "") then
         print_end_empty Stdout (cp_stderr result)
       else ret tt)
      (fun e =>
         match e with
         | CalledProcessError _ _ out err =>
             Some (let! _ := print Stdout
                               ("Error running reminderctl: " +:+ exn_str w e) in
                   let! _ := print Stdout ("Stdout: " +:+ out) in
                   let! _ := print Stdout ("Stderr: " +:+ err) in
                   raise e)
         | FileNotFoundError _ =>
             Some (let! _ := print Stdout
                               ("Error: " +:+ exn_str w e +:+
                                ". Make sure 'reminderctl' is compiled and accessible.") in
                   raise e)
         | _ => None
         end).

(** ** [remindctl/commands/section.py] *)

Definition run_section_cmd (w : World) (args : Namespace) : M unit :=
  let script_dir := dirname (abspath_file w section_py) in
  let project_root := dirname (dirname script_dir) in
  let sectionctl_path := join project_root "sectionctl" in
  let! found := os_path_exists w sectionctl_path in
  let sectionctl_path :=
    if negb found then
      (* Fallback: the directory of the package *)
      let package_dir := dirname script_dir in
      join package_dir "sectionctl"
    else sectionctl_path in
  let! found := os_path_exists w sectionctl_path in
  if negb found then
    raise (FileNotFoundError
             ("sectionctl binary not found. Expected at "
              +:+ join project_root "sectionctl" +:+ ". "
              +:+ "Make sure to compile sectionctl.swift first."))
  else
    let! operation := getattr args "operation" in
    let cmd_parts := [PyStr sectionctl_path; operation] in
    let! cmd_parts :=
      (if decide (operation = PyStr "create") then
         let! list_id := getattr args "list_id" in
         let! missing :=
           (if negb (truthy list_id) then ret true
            else let! display_name := getattr args "display_name" in
                 ret (negb (truthy display_name))) in
         if (missing : bool) then
           raise (ValueError
                    "Both --list-id and --display-name are required for create operation.")
         else
           let! display_name := getattr args "display_name" in
           ret (cmd_parts ++ [list_id; display_name])
       else if decide (operation = PyStr "list") then
         let! list_id := getattr args "list_id" in
         if truthy list_id then ret (cmd_parts ++ [list_id])
         else ret cmd_parts
       else if decide (operation = PyStr "update") then
         let! section_id := getattr args "section_id" in
         let! missing :=
           (if negb (truthy section_id) then ret true
            else let! display_name := getattr args "display_name" in
                 ret (negb (truthy display_name))) in
         if (missing : bool) then
           raise (ValueError
                    "Both --section-id and --display-name are required for update operation.")
         else
           let! display_name := getattr args "display_name" in
           ret (cmd_parts ++ [section_id; display_name])
       else if decide (operation = PyStr "delete") then
         let! section_id := getattr args "section_id" in
         if negb (truthy section_id) then
           raise (ValueError "--section-id is required for delete operation.")
         else ret (cmd_parts ++ [section_id])
       else if decide (operation = PyStr "lists") then
         (* This lists available reminder lists *)
         ret cmd_parts
       else
         raise (ValueError
                  ("Unsupported section operation: " +:+ py_str operation)))
    in
    try_except
      (let! result := subprocess_run w cmd_parts in
       let! _ := print_end_empty Stdout (cp_stdout result) in
       if negb (String.eqb (cp_stderr result) "") then
         print_end_empty Stdout (cp_stderr result)
       else ret tt)
      (fun e =>
         match e with
         | CalledProcessError _ _ out err =>
             Some (let! _ := print Stdout
                               ("Error running sectionctl: " +:+ exn_str w e) in
                   let! _ := print Stdout ("Stdout: " +:+ out) in
                   let! _ := print Stdout ("Stderr: " +:+ err) in
                   raise e)
         | FileNotFoundError _ =>
             Some (let! _ := print Stdout
                               ("Error: " +:+ exn_str w e +:+
                                ". Make sure 'sectionctl' is compiled and accessible.") in
                   raise e)
         | _ => None
         end).

(** ** [remindctl/commands/subtask.py] *)

Definition run_subtask_cmd (w : World) (args : Namespace) : M unit :=
  let script_dir := dirname (abspath_file w subtask_py) in
  let project_root := dirname (dirname script_dir) in
  let subtaskctl_path := join project_root "subtaskctl" in
  let! found := os_path_exists w subtaskctl_path in
  let subtaskctl_path :=
    if negb found then
      (* Fallback: the directory of the package *)
      let package_dir := dirname script_dir in
      join package_dir "subtaskctl"
    else subtaskctl_path in
  let! found := os_path_exists w subtaskctl_path in
  if negb found then
    raise (FileNotFoundError
             ("subtaskctl binary not found. Expected at "
              +:+ join project_root "subtaskctl" +:+ ". "
              +:+ "Make sure to compile subtaskctl.swift first."))
  else
    let! operation := getattr args "operation" in
    let cmd_parts := [PyStr subtaskctl_path; operation] in
    let! cmd_parts :=
      (if decide (operation = PyStr "create") then
         let! parent_id := getattr args "parent_id" in
         let! missing :=
           (if negb (truthy parent_id) then ret true
            else let! title := getattr args "title" in
                 ret (negb (truthy title))) in
         if (missing : bool) then
           raise (ValueError
                    "Both --parent-id and --title are required for create operation.")
         else
           let! title := getattr args "title" in
           ret (cmd_parts ++ [parent_id; title])
       else if decide (operation = PyStr "list") then
         let! parent_id := getattr args "parent_id" in
         if negb (truthy parent_id) then
           raise (ValueError "--parent-id is required for list operation.")
         else ret (cmd_parts ++ [parent_id])
       else if decide (operation = PyStr "update") then
         let! subtask_id := getattr args "subtask_id" in
         if negb (truthy subtask_id) then
           raise (ValueError "--subtask-id is required for update operation.")
         else
           let cmd_parts := cmd_parts ++ [subtask_id] in
           let! new_title := getattr args "new_title" in
           if truthy new_title then ret (cmd_parts ++ [new_title])
           else ret cmd_parts
       else if decide (operation = PyStr "delete") then
         let! subtask_id := getattr args "subtask_id" in
         if negb (truthy subtask_id) then
           raise (ValueError "--subtask-id is required for delete operation.")
         else ret (cmd_parts ++ [subtask_id])
       else
         raise (ValueError
                  ("Unsupported subtask operation: " +:+ py_str operation)))
    in
    try_except
      (let! result := subprocess_run w cmd_parts in
       let! _ := print_end_empty Stdout (cp_stdout result) in
       if negb (String.eqb (cp_stderr result) "") then
         print_end_empty Stdout (cp_stderr result)
       else ret tt)
      (fun e =>
         match e with
         | CalledProcessError _ _ out err =>
             Some (let! _ := print Stdout
                               ("Error running subtaskctl: " +:+ exn_str w e) in
                   let! _ := print Stdout ("Stdout: " +:+ out) in
                   let! _ := print Stdout ("Stderr: " +:+ err) in
                   raise e)
         | FileNotFoundError _ =>
             Some (let! _ := print Stdout
                               ("Error: " +:+ exn_str w e +:+
                                ". Make sure 'subtaskctl' is compiled and accessible.") in
                   raise e)
         | _ => None
         end).

(** ** Registration of the sub-parsers *)

(** [subparsers.add_parser(name, ...)] starts from a parser without
    arguments; [add_argument] and [set_defaults] extend it. *)
Definition new_parser : SubParser :=
  {| arguments := []; defaults := ∅ |}.

Definition add_argument (sp : SubParser) (flags : list string)
    (d : string) (ch : option (list string)) : SubParser :=
  {| arguments := arguments sp ++
                  [{| option_strings := flags; dest := d; choices := ch |}];
     defaults := defaults sp |}.

Definition set_defaults (sp : SubParser) (name : string) (v : PyVal)
  : SubParser :=
  {| arguments := arguments sp; defaults := <[name := v]> (defaults sp) |}.

(** [ap], the parser [add_parser] creates and configures. *)
Definition add_ap : SubParser :=
  let ap := new_parser in
  let ap := add_argument ap [] "title" None in
  let ap := add_argument ap ["--section"; "--section-id"] "section_id" None in
  let ap := add_argument ap ["--list"; "--list-id"] "list_id" None in
  set_defaults ap "func" (PyFunc fn_run_add_cmd).

Definition add_parser (subparsers : gmap string SubParser)
  : gmap string SubParser :=
  <["add" := add_ap]> subparsers.

(** [sp], the parser [section_parser] creates and configures. *)
Definition section_sp : SubParser :=
  let sp := new_parser in
  let sp := add_argument sp [] "operation"
              (Some ["create"; "list"; "update"; "delete"; "lists"]) in
  let sp := add_argument sp ["--list-id"] "list_id" None in
  let sp := add_argument sp ["--section-id"] "section_id" None in
  let sp := add_argument sp ["--display-name"] "display_name" None in
  set_defaults sp "func" (PyFunc fn_run_section_cmd).

Definition section_parser (subparsers : gmap string SubParser)
  : gmap string SubParser :=
  <["section" := section_sp]> subparsers.

(** [sp], the parser [subtask_parser] creates and configures. *)
Definition subtask_sp : SubParser :=
  let sp := new_parser in
  let sp := add_argument sp [] "operation"
              (Some ["create"; "list"; "update"; "delete"]) in
  let sp := add_argument sp ["--parent-id"] "parent_id" None in
  let sp := add_argument sp ["--subtask-id"] "subtask_id" None in
  let sp := add_argument sp ["--title"] "title" None in
  let sp := add_argument sp ["--new-title"] "new_title" None in
  set_defaults sp "func" (PyFunc fn_run_subtask_cmd).

Definition subtask_parser (subparsers : gmap string SubParser)
  : gmap string SubParser :=
  <["subtask" := subtask_sp]> subparsers.

(** ** [remindctl/__main__.py] *)

(** A token that starts with the prefix character of [argparse]. *)
Definition option_like (tok : string) : bool :=
  match tok with
  | String c _ => Ascii.eqb c "-"%char
  | EmptyString => false
  end.

(** [parser.parse_args()] of the top-level parser: the [--version] action,
    the help action, and the sub-command positional whose choices are the
    registered names.  The attributes of the chosen sub-parser, its
    defaults among them, are copied into the namespace. *)
Definition parse_args (w : World) (subparsers : gmap string SubParser)
    (argv : list string) : M Namespace :=
  match argv with
  | [] => ret {[ "command" := PyNone ]}
  | tok :: rest =>
      if String.eqb tok "--version" then
        let! _ := tell (EPrintVersion "remindctl 0.1.0") in
        raise (SystemExit 0)
      else if String.eqb tok "-h" || String.eqb tok "--help" then
        let! _ := tell EPrintHelp in
        raise (SystemExit 0)
      else if option_like tok then argparse_option_like w argv
      else
        match subparsers !! tok with
        | None =>
            let! _ := tell (EParserError (InvalidChoice tok)) in
            raise (SystemExit 2)
        | Some sp =>
            let! attrs := argparse_subcommand w sp rest in
            ret (attrs ∪ defaults sp ∪ {[ "command" := PyStr tok ]})
        end
  end.

Definition call_handler (h : Handler) : World -> Namespace -> M unit :=
  match h with
  | fn_run_add_cmd => run_add_cmd
  | fn_run_section_cmd => run_section_cmd
  | fn_run_subtask_cmd => run_subtask_cmd
  end.

(** [f(args)] for an attribute value [f]. *)
Definition call (w : World) (f : PyVal) (args : Namespace) : M unit :=
  match f with
  | PyFunc h => call_handler h w args
  | PyNone => raise (TypeError "'NoneType' object is not callable")
  | PyStr _ => raise (TypeError "'str' object is not callable")
  end.

(** The body of [main] once the arguments are parsed (lines 34 to 47). *)
Definition dispatch (w : World) (args : Namespace) : M unit :=
  let! command := getattr args "command" in
  if decide (command = PyNone) then
    let! _ := tell EPrintHelp in
    raise (SystemExit 0)
  else
    match args !! "func" with
    | Some func =>
        try_except (call w func args)
          (fun e =>
             if is_Exception e then
               Some (let! _ := print Stderr ("Error: " +:+ exn_str w e) in
                     raise (SystemExit 1))
             else None)
    | None =>
        let! _ := tell EPrintHelp in
        raise (SystemExit 1)
    end.

Definition main (w : World) (argv : list string) : M unit :=
  let subparsers : gmap string SubParser := ∅ in
  (* Register command parsers *)
  let subparsers := subtask_parser subparsers in
  (* Parse arguments *)
  let! args := parse_args w subparsers argv in
  dispatch w args.

(** The exit status of the process that ran [m] as its script. *)
Definition exit_status {A} (m : M A) : Z :=
  match result m with
  | Ok _ => 0
  | Raise (SystemExit code) => code
  | Raise _ => 1
  end.

(** * Verification *)

Arguments dirname : simpl never.
Arguments join : simpl never.
Arguments String.append : simpl never.
Arguments line : simpl never.

(** ** Vocabulary of the statements *)

Definition module_of (h : Handler) : PyModule :=
  match h with
  | fn_run_add_cmd => add_py
  | fn_run_section_cmd => section_py
  | fn_run_subtask_cmd => subtask_py
  end.

Definition binary_name (h : Handler) : string :=
  match h with
  | fn_run_add_cmd => "reminderctl"
  | fn_run_section_cmd => "sectionctl"
  | fn_run_subtask_cmd => "subtaskctl"
  end.

Definition parser_of (h : Handler) : SubParser :=
  match h with
  | fn_run_add_cmd => add_ap
  | fn_run_section_cmd => section_sp
  | fn_run_subtask_cmd => subtask_sp
  end.

(** The project root is the parent of the package directory, which is
    the parent of the directory of the command modules. *)
Definition primary_path (w : World) (h : Handler) : string :=
  join (dirname (dirname (dirname (abspath_file w (module_of h)))))
       (binary_name h).

Definition fallback_path (w : World) (h : Handler) : string :=
  join (dirname (dirname (abspath_file w (module_of h)))) (binary_name h).

(** The binary a handler settles on: [run_add_cmd] looks at the primary
    path only, the two others at the primary path and then at the
    fallback. *)
Definition located (w : World) (h : Handler) : option string :=
  if path_exists w (primary_path w h) then Some (primary_path w h)
  else
    match h with
    | fn_run_add_cmd => None
    | _ =>
        if path_exists w (fallback_path w h) then Some (fallback_path w h)
        else None
    end.

(** The search order of section 4.3 of the specification: the primary
    path, then the fallback, for every sub-command. *)
Definition locator_of_spec (w : World) (h : Handler) : option string :=
  if path_exists w (primary_path w h) then Some (primary_path w h)
  else if path_exists w (fallback_path w h) then Some (fallback_path w h)
  else None.

(** The file-system probes of a handler's locator, in order. *)
Definition locator_probes (w : World) (h : Handler) : list Event :=
  match h with
  | fn_run_add_cmd => [EExists (primary_path w h)]
  | _ =>
      [EExists (primary_path w h);
       EExists (if path_exists w (primary_path w h) then primary_path w h
                else fallback_path w h)]
  end.

(** The message of the locator's [FileNotFoundError]. *)
Definition not_found_message (w : World) (h : Handler) : string :=
  match h with
  | fn_run_add_cmd =>
      "reminderctl binary not found at " +:+ primary_path w h +:+ ". "
      +:+ "Make sure to compile reminderctl.swift first."
  | fn_run_section_cmd =>
      "sectionctl binary not found. Expected at " +:+ primary_path w h
      +:+ ". " +:+ "Make sure to compile sectionctl.swift first."
  | fn_run_subtask_cmd =>
      "subtaskctl binary not found. Expected at " +:+ primary_path w h
      +:+ ". " +:+ "Make sure to compile subtaskctl.swift first."
  end.

(** The errors a handler raises about the request itself. *)
Definition validation_error (e : Exn) : Prop :=
  match e with
  | ValueError _ | AttributeError _ => True
  | _ => False
  end.

(** The argument vectors handed to [subprocess.run], in order. *)
Definition spawned_of (t : list Event) : list (list string) :=
  omap (fun ev => match ev with ESubprocessRun c => Some c | _ => None end) t.

Definition spawned {A} (m : M A) : list (list string) :=
  spawned_of (trace m).

Definition is_probe (ev : Event) : bool :=
  match ev with
  | EExists _ => true
  | _ => false
  end.

(** A trace made of file-system probes only. *)
Definition only_probes (t : list Event) : Prop :=
  forallb is_probe t = true.

(** An attribute counts as given when it is there and true in Python's
    sense, so neither [None] nor the empty string. *)
Definition present (args : Namespace) (name : string) : bool :=
  match args !! name with
  | Some v => truthy v
  | None => false
  end.

(** The required fields of each operation, as section 4.2 of the
    specification lists them ([add] has the rule of [missing_required]
    instead). *)
Definition required_fields (h : Handler) (operation : PyVal)
  : list string :=
  match h with
  | fn_run_add_cmd => []
  | fn_run_section_cmd =>
      if decide (operation = PyStr "create")
      then ["list_id"; "display_name"]
      else if decide (operation = PyStr "update")
      then ["section_id"; "display_name"]
      else if decide (operation = PyStr "delete")
      then ["section_id"]
      else []
  | fn_run_subtask_cmd =>
      if decide (operation = PyStr "create")
      then ["parent_id"; "title"]
      else if decide (operation = PyStr "list")
      then ["parent_id"]
      else if decide (operation = PyStr "update")
      then ["subtask_id"]
      else if decide (operation = PyStr "delete")
      then ["subtask_id"]
      else []
  end.

(** A request that misses a required field: for [add], neither the
    section nor the list identifier is given; for the two others, some
    required field of the operation is not given. *)
Definition missing_required (h : Handler) (args : Namespace) : bool :=
  match h with
  | fn_run_add_cmd =>
      negb (present args "section_id") && negb (present args "list_id")
  | _ =>
      match args !! "operation" with
      | Some operation =>
          existsb (fun k => negb (present args k))
                  (required_fields h operation)
      | None => false
      end
  end.

(** A namespace that has every attribute the sub-parser declares. *)
Definition parsed_by (sp : SubParser) (args : Namespace) : Prop :=
  Forall (fun a => is_Some (args !! dest a)) (arguments sp).

(** The destinations of the optional flags of a sub-parser. *)
Definition flag_dests (sp : SubParser) : list string :=
  dest <$> filter (fun a => option_strings a <> []) (arguments sp).

(** The [try] block the three handlers end with, the name of the binary
    in its messages taken as a parameter. *)
Definition relay (w : World) (name : string) (cmd_parts : list PyVal)
  : M unit :=
  try_except
    (let! result := subprocess_run w cmd_parts in
     let! _ := print_end_empty Stdout (cp_stdout result) in
     if negb (String.eqb (cp_stderr result) "") then
       print_end_empty Stdout (cp_stderr result)
     else ret tt)
    (fun e =>
       match e with
       | CalledProcessError _ _ out err =>
           Some (let! _ := print Stdout
                             ("Error running " +:+ name +:+ ": "
                              +:+ exn_str w e) in
                 let! _ := print Stdout ("Stdout: " +:+ out) in
                 let! _ := print Stdout ("Stderr: " +:+ err) in
                 raise e)
       | FileNotFoundError _ =>
           Some (let! _ := print Stdout
                             ("Error: " +:+ exn_str w e +:+
                              ". Make sure '" +:+ name
                              +:+ "' is compiled and accessible.") in
                 raise e)
       | _ => None
       end).

(** The [except Exception] clause of [main]. *)
Definition report_error (w : World) (e : Exn) : option (M unit) :=
  if is_Exception e then
    Some (let! _ := print Stderr ("Error: " +:+ exn_str w e) in
          raise (SystemExit 1))
  else None.

(** ** Installations and requests used as examples *)

Definition demo_file (m : PyModule) : string :=
  match m with
  | add_py => "/opt/app/remindctl/commands/add.py"
  | section_py => "/opt/app/remindctl/commands/section.py"
  | subtask_py => "/opt/app/remindctl/commands/subtask.py"
  end.

(** An installation under [/opt/app], given which paths exist and what
    the binaries do. *)
Definition demo_world (files : list string)
    (outcome : list string -> RunOutcome) : World :=
  {| abspath_file := demo_file;
     path_exists := fun p => existsb (String.eqb p) files;
     run_outcome := outcome;
     CalledProcessError_str := fun _ _ => "Command returned non-zero exit status";
     argparse_option_like := fun _ => raise (SystemExit 2);
     argparse_subcommand := fun _ _ => raise (SystemExit 2) |}.

(** The binaries in the project root, all succeeding. *)
Definition w_installed : World :=
  demo_world ["/opt/app/reminderctl"; "/opt/app/sectionctl";
              "/opt/app/subtaskctl"]
             (fun _ => Exited 0 "done" "").

(** The binaries in the project root, all failing with status 1. *)
Definition w_failing : World :=
  demo_world ["/opt/app/reminderctl"; "/opt/app/sectionctl";
              "/opt/app/subtaskctl"]
             (fun _ => Exited 1 "partial" "boom").

(** The binaries in the project root, all exiting with status 0 after
    writing a byte that is not valid UTF-8. *)
Definition w_garbled : World :=
  demo_world ["/opt/app/reminderctl"; "/opt/app/sectionctl";
              "/opt/app/subtaskctl"]
             (fun _ => Undecodable 0
                "'utf-8' codec can't decode byte 0xff in position 0: invalid start byte").

(** The same, the binaries exiting with status 1. *)
Definition w_garbled_failing : World :=
  demo_world ["/opt/app/reminderctl"; "/opt/app/sectionctl";
              "/opt/app/subtaskctl"]
             (fun _ => Undecodable 1
                "'utf-8' codec can't decode byte 0xff in position 0: invalid start byte").

(** No binary anywhere. *)
Definition w_no_binary : World :=
  demo_world [] (fun _ => Exited 0 "done" "").

(** The binaries next to the package only, at the fallback location. *)
Definition w_package_dir : World :=
  demo_world ["/opt/app/remindctl/reminderctl";
              "/opt/app/remindctl/sectionctl";
              "/opt/app/remindctl/subtaskctl"]
             (fun _ => Exited 0 "done" "").

(** [add "Buy milk" --list Groceries] *)
Definition ns_add_list : Namespace :=
  {[ "command" := PyStr "add"; "func" := PyFunc fn_run_add_cmd;
     "title" := PyStr "Buy milk"; "section_id" := PyNone;
     "list_id" := PyStr "Groceries" ]}.

(** [section create --list-id L1 --display-name Work] *)
Definition ns_section_create : Namespace :=
  {[ "command" := PyStr "section"; "func" := PyFunc fn_run_section_cmd;
     "operation" := PyStr "create"; "list_id" := PyStr "L1";
     "section_id" := PyNone; "display_name" := PyStr "Work" ]}.

(** [section lists] *)
Definition ns_section_lists : Namespace :=
  {[ "command" := PyStr "section"; "func" := PyFunc fn_run_section_cmd;
     "operation" := PyStr "lists"; "list_id" := PyNone;
     "section_id" := PyNone; "display_name" := PyNone ]}.

(** [subtask update --subtask-id S1] *)
Definition ns_subtask_update : Namespace :=
  {[ "command" := PyStr "subtask"; "func" := PyFunc fn_run_subtask_cmd;
     "operation" := PyStr "update"; "parent_id" := PyNone;
     "subtask_id" := PyStr "S1"; "title" := PyNone;
     "new_title" := PyNone ]}.

(** [subtask list], without [--parent-id] *)
Definition ns_subtask_list : Namespace :=
  {[ "command" := PyStr "subtask"; "func" := PyFunc fn_run_subtask_cmd;
     "operation" := PyStr "list"; "parent_id" := PyNone;
     "subtask_id" := PyNone; "title" := PyNone; "new_title" := PyNone ]}.

(** [subtask list --parent-id P1] *)
Definition ns_subtask_list_P1 : Namespace :=
  <["parent_id" := PyStr "P1"]> ns_subtask_list.

(** ** Further vocabulary *)

(** The texts written on a stream, in order. *)
Definition written (f : Stream) (t : list Event) : list string :=
  omap (fun ev =>
          match ev, f with
          | EPrint Stdout text, Stdout => Some text
          | EPrint Stderr text, Stderr => Some text
          | _, _ => None
          end) t.

(** The choices of the positional [operation] of a sub-parser. *)
Definition operation_choices (sp : SubParser) : list string :=
  match filter (fun a => dest a = "operation") (arguments sp) with
  | a :: _ => default [] (choices a)
  | [] => []
  end.

(** A namespace as [argparse] fills it for a sub-parser: a string for
    every positional, a string or [None] for every flag. *)
Definition argparse_typed (sp : SubParser) (args : Namespace) : Prop :=
  Forall (fun a =>
            match args !! dest a with
            | Some (PyStr _) => True
            | Some PyNone => option_strings a <> []
            | _ => False
            end) (arguments sp).

(** The exceptions that stand for the environment or the request, as
    opposed to a defect of the dispatcher itself: a [FileNotFoundError],
    a [ValueError] (a [UnicodeDecodeError] is one), an [OSError] or a
    [CalledProcessError]. *)
Definition operational_error (e : Exn) : Prop :=
  match e with
  | FileNotFoundError _ | ValueError _ | UnicodeDecodeError _ | OSError _
  | CalledProcessError _ _ _ _ => True
  | _ => False
  end.

(** Every element of an argument vector after the binary is a literal of
    the handler, or the value of a declared attribute that the handler
    found true, or the title of [add], which is passed as it is. *)
Definition vector_element (h : Handler) (args : Namespace) (v : PyVal)
  : Prop :=
  (exists s, v = PyStr s /\ s <> "")
  \/ (exists d, In d (dest <$> arguments (parser_of h))
        /\ args !! d = Some v
        /\ (truthy v = true \/ (h = fn_run_add_cmd /\ d = "title"))).

(** The errors a handler raises about the request: a [ValueError], or an
    [AttributeError] for a declared attribute the namespace lacks. *)
Definition request_error (h : Handler) (args : Namespace) (e : Exn)
  : Prop :=
  (exists msg, e = ValueError msg)
  \/ (exists d, In d (dest <$> arguments (parser_of h))
        /\ args !! d = None /\ e = AttributeError d).

(** A name without a separator in it. *)
Definition no_sep (s : string) : bool :=
  forallb (fun c => negb (is_sep c)) (list_ascii_of_string s).

(** The binaries in the project root, removed between the locator's
    probe and the call of [subprocess.run]. *)
Definition w_vanishing : World :=
  demo_world ["/opt/app/reminderctl"; "/opt/app/sectionctl";
              "/opt/app/subtaskctl"]
             (fun _ => NotFound "[Errno 2] No such file or directory").

(** The binaries in the project root, not executable. *)
Definition w_not_executable : World :=
  demo_world ["/opt/app/reminderctl"; "/opt/app/sectionctl";
              "/opt/app/subtaskctl"]
             (fun _ => NotStarted "[Errno 13] Permission denied").

(** The attributes of [subtask list --parent-id P1]. *)
Definition attrs_subtask_list_P1 : Namespace :=
  {[ "operation" := PyStr "list"; "parent_id" := PyStr "P1";
     "subtask_id" := PyNone; "title" := PyNone; "new_title" := PyNone ]}.

(** The installation of [w_installed], with a sub-parser that accepts
    [list --parent-id P1]. *)
Definition w_parsing : World :=
  {| abspath_file := demo_file;
     path_exists := path_exists w_installed;
     run_outcome := run_outcome w_installed;
     CalledProcessError_str := CalledProcessError_str w_installed;
     argparse_option_like := argparse_option_like w_installed;
     argparse_subcommand := fun _ rest =>
       if decide (rest = ["list"; "--parent-id"; "P1"])
       then ret attrs_subtask_list_P1
       else raise (SystemExit 2) |}.

(** ** Proof steps *)

(** Rewrites with a hypothesis that tells what a test of the run gives. *)
Ltac py_rewrite :=
  match goal with
  | H : ?x = _ |- context [?x] =>
      lazymatch x with
      | true => fail
      | false => fail
      | _ => rewrite H
      end
  end.

(** String literals are large terms; naming them keeps the goals small
    while a handler is run symbolically. *)
Ltac name_literals :=
  repeat match goal with
         | |- context [String ?c ?s] =>
             let m := fresh "lit" in set (m := String c s) in *
         end.

(** Splits on the next thing the run depends on. *)
Ltac py_split :=
  match goal with
  | |- context [path_exists ?w ?p] =>
      let E := fresh "Hex" in destruct (path_exists w p) eqn:E
  | |- context [@lookup _ _ (gmap string PyVal) _ ?k ?args] =>
      let E := fresh "Hlk" in
      destruct (@lookup _ _ (gmap string PyVal) _ k args) eqn:E
  | |- context [decide (?a = ?b)] =>
      let H := fresh "Hd" in
      destruct (decide (a = b)) as [H | H];
      [ try (exfalso; let H' := fresh in
             pose proof H as H'; cbv in H'; discriminate H')
      | try (exfalso; apply H; reflexivity) ]
  | |- context [truthy ?v] =>
      let E := fresh "Htr" in destruct (truthy v) eqn:E
  end.

Ltac py_eval :=
  cbv beta iota zeta
      delta [bind ret raise tell app negb existsb orb andb].

(** Turns [parsed_by] into one lookup equation per attribute. *)
Ltac py_attrs H :=
  unfold parsed_by in H; cbn in H; rewrite !Forall_cons in H;
  repeat match goal with
         | H' : _ /\ _ |- _ => destruct H' as [? ?]
         | H' : is_Some _ |- _ => destruct H' as [? ?]
         | H' : Forall _ [] |- _ => clear H'
         end;
  cbn [dest] in *.

(** Folds the final [try] block of a handler into [relay]. *)
Ltac py_fold_relay :=
  match goal with
  | w : World |- context [fun c : list PyVal => @?body c] =>
      let k := eval cbv beta in (fun c : list PyVal => body c) in
      first [ change k with (relay w "reminderctl")
            | change k with (relay w "sectionctl")
            | change k with (relay w "subtaskctl") ]
  end.

(** Opens a handler: the final [try] block folded into [relay], the
    primitive operations unfolded. *)
Ltac py_open :=
  unfold call_handler, run_add_cmd, run_section_cmd, run_subtask_cmd;
  py_fold_relay;
  unfold os_path_exists, getattr, located, locator_probes,
    not_found_message, primary_path, fallback_path;
  cbn [module_of binary_name].

(** Decides a comparison of two known values. *)
Ltac py_decide :=
  match goal with
  | |- context [decide (?a = ?b)] =>
      let H := fresh "Hd" in
      destruct (decide (a = b)) as [H | H];
      [ try discriminate H | try (exfalso; apply H; reflexivity) ]
  end.

(** Runs an opened handler along the path the hypotheses fix. *)
Ltac py_go :=
  repeat first [progress cbn -[relay] | py_rewrite | py_decide].

(** Splits on what the locator finds. *)
Ltac py_locate :=
  repeat (first [ py_rewrite
                | match goal with
                  | |- context [path_exists ?w ?p] =>
                      let E := fresh "Hex" in
                      destruct (path_exists w p) eqn:E
                  end ];
          cbn -[relay]).

(** ** The trace of a run *)

Lemma spawned_of_app t1 t2 :
  spawned_of (t1 ++ t2) = spawned_of t1 ++ spawned_of t2.
Proof. unfold spawned_of. apply omap_app. Qed.

Lemma spawned_of_probes t : only_probes t -> spawned_of t = [].
Proof.
  unfold only_probes. induction t as [| ev t IH]; [reflexivity |].
  destruct ev; cbn; try discriminate. exact IH.
Qed.

Lemma locator_probes_only w h : only_probes (locator_probes w h).
Proof. destruct h; reflexivity. Qed.

(** ** The final [try] block *)

Lemma relay_not_argv w name cmd :
  as_argv cmd = None ->
  relay w name cmd =
    ([], Raise (TypeError "expected str, bytes or os.PathLike object")).
Proof. intros H. unfold relay, subprocess_run. rewrite H. reflexivity. Qed.

Lemma relay_success w name cmd argv out err :
  as_argv cmd = Some argv ->
  run_outcome w argv = Exited 0 out err ->
  relay w name cmd =
    (ESubprocessRun argv :: EPrint Stdout out ::
       (if String.eqb err "" then [] else [EPrint Stdout err]),
     Ok tt).
Proof.
  intros Ha Hr. unfold relay, subprocess_run. rewrite Ha. cbn. rewrite Hr.
  cbn. destruct (String.eqb err ""); reflexivity.
Qed.

Lemma relay_failure w name cmd argv rc out err :
  as_argv cmd = Some argv ->
  run_outcome w argv = Exited rc out err -> rc <> 0 ->
  let e := CalledProcessError rc argv out err in
  relay w name cmd =
    ([ESubprocessRun argv;
      EPrint Stdout (line ("Error running " +:+ name +:+ ": "
                           +:+ exn_str w e));
      EPrint Stdout (line ("Stdout: " +:+ out));
      EPrint Stdout (line ("Stderr: " +:+ err))],
     Raise e).
Proof.
  intros Ha Hr Hrc. unfold relay, subprocess_run. rewrite Ha. cbn.
  rewrite Hr. apply Z.eqb_neq in Hrc. rewrite Hrc. reflexivity.
Qed.

(** No [except] clause of the block matches a [UnicodeDecodeError]. *)
Lemma relay_undecodable w name cmd argv rc msg :
  as_argv cmd = Some argv ->
  run_outcome w argv = Undecodable rc msg ->
  relay w name cmd = ([ESubprocessRun argv], Raise (UnicodeDecodeError msg)).
Proof.
  intros Ha Hr. unfold relay, subprocess_run. rewrite Ha. cbn. rewrite Hr.
  reflexivity.
Qed.

Lemma relay_spawned w name cmd :
  spawned (relay w name cmd) =
  match as_argv cmd with Some argv => [argv] | None => [] end.
Proof.
  unfold relay, subprocess_run, spawned, spawned_of, trace.
  destruct (as_argv cmd) as [argv|]; [|reflexivity].
  cbn. destruct (run_outcome w argv) as [rc out err|msg|msg|rc msg|msg]; cbn;
    [destruct (rc =? 0); cbn; [destruct (String.eqb err "")|] | | | |];
    reflexivity.
Qed.

(** Closes a goal about the argument vectors of a run that ends in
    [relay]. *)
Ltac py_spawned :=
  match goal with
  | |- context [relay ?w ?n ?c] =>
      let H := fresh in
      pose proof (relay_spawned w n c) as H; cbn in H;
      destruct (relay w n c);
      unfold spawned, spawned_of, trace in *; cbn in *; exact H
  end.

(** ** The shape of every run of a handler *)

(** Every run of a handler is one of three: the locator fails; the
    locator succeeds and the request is rejected; the locator succeeds
    and the final [try] block runs on an argument vector that starts with
    the located binary.  Up to that point the trace holds the locator's
    probes and nothing else. *)
Lemma handler_cases h w args :
  (located w h = None /\
   call_handler h w args =
     (locator_probes w h, Raise (FileNotFoundError (not_found_message w h))))
  \/ (exists p e, located w h = Some p /\ validation_error e /\
        call_handler h w args = (locator_probes w h, Raise e))
  \/ (exists p rest, located w h = Some p /\
        call_handler h w args =
          (locator_probes w h
             ++ trace (relay w (binary_name h) (PyStr p :: rest)),
           result (relay w (binary_name h) (PyStr p :: rest)))).
Proof.
  remember (call_handler h w args) as m eqn:E. symmetry in E. revert E.
  destruct h; py_open; name_literals;
    repeat (py_split; py_eval; try py_rewrite); intros <-.
  all: try (left; split; reflexivity).
  all: try (right; left; eexists _, _; split; [reflexivity|];
            split; [|reflexivity]; exact I).
  all: right; right.
  all: match goal with
       | |- context [relay ?w ?n (PyStr ?p :: ?c)] =>
           exists p, c; split; [reflexivity|];
           destruct (relay w n (PyStr p :: c)); reflexivity
       end.
Qed.

(** ** The router after parsing *)

Lemma dispatch_handler w args cv h :
  args !! "command" = Some cv -> cv <> PyNone ->
  args !! "func" = Some (PyFunc h) ->
  dispatch w args = try_except (call_handler h w args) (report_error w).
Proof.
  intros Hc Hcv Hf. unfold dispatch, getattr. rewrite Hc, Hf.
  cbn [bind ret call]. destruct (decide (cv = PyNone)) as [|_]; [done|].
  fold (report_error w). destruct (try_except _ _). reflexivity.
Qed.

(** What a run of a handler hands to [subprocess.run]: nothing, or the
    one argument vector of its final [try] block. *)
Lemma handler_spawned h w args cmd :
  In cmd (spawned (call_handler h w args)) ->
  exists parts, as_argv parts = Some cmd /\
    call_handler h w args =
      (locator_probes w h ++ trace (relay w (binary_name h) parts),
       result (relay w (binary_name h) parts)).
Proof.
  intros Hin.
  destruct (handler_cases h w args)
    as [[_ E] | [(p & e & _ & _ & E) | (p & rest & _ & E)]].
  - rewrite E in Hin. unfold spawned, trace in Hin. cbn [fst] in Hin.
    rewrite spawned_of_probes in Hin by apply locator_probes_only.
    destruct Hin.
  - rewrite E in Hin. unfold spawned, trace in Hin. cbn [fst] in Hin.
    rewrite spawned_of_probes in Hin by apply locator_probes_only.
    destruct Hin.
  - exists (PyStr p :: rest). split; [|exact E].
    rewrite E in Hin. unfold spawned in Hin. unfold trace at 1 in Hin.
    cbn [fst] in Hin. rewrite spawned_of_app in Hin.
    rewrite spawned_of_probes in Hin by apply locator_probes_only.
    cbn [app] in Hin. fold (spawned (relay w (binary_name h) (PyStr p :: rest))) in Hin.
    rewrite relay_spawned in Hin.
    destruct (as_argv (PyStr p :: rest)) as [argv|]; [|destruct Hin].
    destruct Hin as [-> | []]. reflexivity.
Qed.

(** Output that is not valid text: no [except] clause of the handler
    applies, the handler writes nothing, and the dispatcher reports the
    decoding error, whatever the status the child exited with. *)
Lemma undecodable_reported w args cv h cmd rc msg :
  args !! "command" = Some cv -> cv <> PyNone ->
  args !! "func" = Some (PyFunc h) ->
  In cmd (spawned (call_handler h w args)) ->
  run_outcome w cmd = Undecodable rc msg ->
  dispatch w args =
    (locator_probes w h ++
     [ESubprocessRun cmd; EPrint Stderr (line ("Error: " +:+ msg))],
     Raise (SystemExit 1)).
Proof.
  intros Hc Hcv Hf Hin Hrun.
  rewrite (dispatch_handler w args cv h Hc Hcv Hf).
  destruct (handler_spawned h w args cmd Hin) as (parts & Hparts & E).
  rewrite E, (relay_undecodable w _ parts cmd rc msg Hparts Hrun).
  unfold result, trace. cbn. rewrite <- app_assoc. reflexivity.
Qed.

(** C8 as it is stated fails for a child whose output is not valid text:
    [subtaskctl] starts, writes a byte that is not UTF-8 and exits with
    status 1; the dispatcher exits with status 1 and writes the "Error: "
    line, but it reproduces nothing of what the child wrote, and writes
    nothing at all on standard output. *)
Lemma C8_undecodable_output_not_reproduced :
  In ["/opt/app/subtaskctl"; "list"; "P1"]
     (spawned (run_subtask_cmd w_garbled_failing ns_subtask_list_P1))
  /\ run_outcome w_garbled_failing ["/opt/app/subtaskctl"; "list"; "P1"] =
       Undecodable 1
         "'utf-8' codec can't decode byte 0xff in position 0: invalid start byte"
  /\ dispatch w_garbled_failing ns_subtask_list_P1 =
       ([EExists "/opt/app/subtaskctl"; EExists "/opt/app/subtaskctl";
         ESubprocessRun ["/opt/app/subtaskctl"; "list"; "P1"];
         EPrint Stderr
           (line "Error: 'utf-8' codec can't decode byte 0xff in position 0: invalid start byte")],
        Raise (SystemExit 1))
  /\ written Stdout (trace (dispatch w_garbled_failing ns_subtask_list_P1))
     = [].
Proof. vm_compute. repeat split. left. reflexivity. Qed.

(** C8.  Whenever a handler started its binary and the binary exited with
    a non-zero status, the dispatcher exits with status 1 and writes
    "Error: " followed by the error to standard error.  When what the
    child wrote is valid text, the dispatcher reproduces before that the
    captured standard output and standard error of the child, unchanged,
    each on a labelled line of its own output; when it is not valid text,
    the error is the decoding error and nothing of the output is
    reproduced. *)
Theorem C8_child_failure_reported (w : World) (args : Namespace)
    (cv : PyVal) (h : Handler) (cmd : list string) (rc : Z) :
  args !! "command" = Some cv -> cv <> PyNone ->
  args !! "func" = Some (PyFunc h) ->
  In cmd (spawned (call_handler h w args)) ->
  rc <> 0 ->
  (forall out err,
     run_outcome w cmd = Exited rc out err ->
     let e := CalledProcessError rc cmd out err in
     exit_status (dispatch w args) = 1 /\
     trace (dispatch w args) =
       locator_probes w h ++
       [ESubprocessRun cmd;
        EPrint Stdout (line ("Error running " +:+ binary_name h +:+ ": "
                             +:+ exn_str w e));
        EPrint Stdout (line ("Stdout: " +:+ out));
        EPrint Stdout (line ("Stderr: " +:+ err));
        EPrint Stderr (line ("Error: " +:+ exn_str w e))])
  /\ (forall msg,
        run_outcome w cmd = Undecodable rc msg ->
        exit_status (dispatch w args) = 1 /\
        trace (dispatch w args) =
          locator_probes w h ++
          [ESubprocessRun cmd; EPrint Stderr (line ("Error: " +:+ msg))]).
Proof.
  intros Hc Hcv Hf Hin Hrc. split.
  - intros out err Hrun e.
    rewrite (dispatch_handler w args cv h Hc Hcv Hf).
    destruct (handler_spawned h w args cmd Hin) as (parts & Hparts & E).
    rewrite E, (relay_failure w _ parts cmd rc out err Hparts Hrun Hrc).
    unfold exit_status, result, trace. cbn.
    split; [reflexivity|]. rewrite <- app_assoc. reflexivity.
  - intros msg Hrun.
    rewrite (undecodable_reported w args cv h cmd rc msg Hc Hcv Hf Hin Hrun).
    split; reflexivity.
Qed.

(** C9 as it is stated fails for a child whose output is not valid text:
    [subtaskctl] starts, writes a byte that is not UTF-8 and exits with
    status 0; the dispatcher relays nothing and exits with status 1. *)
Lemma C9_undecodable_output_exits_1 :
  In ["/opt/app/subtaskctl"; "list"; "P1"]
     (spawned (run_subtask_cmd w_garbled ns_subtask_list_P1))
  /\ run_outcome w_garbled ["/opt/app/subtaskctl"; "list"; "P1"] =
       Undecodable 0
         "'utf-8' codec can't decode byte 0xff in position 0: invalid start byte"
  /\ exit_status (dispatch w_garbled ns_subtask_list_P1) = 1
  /\ exit_status (dispatch w_garbled ns_subtask_list_P1) <> 0
  /\ written Stdout (trace (dispatch w_garbled ns_subtask_list_P1)) = [].
Proof. vm_compute. repeat split; [left; reflexivity | discriminate]. Qed.

(** C9.  Whenever a handler started its binary and the binary exited with
    status 0 after writing valid text, the dispatcher writes the captured
    standard output first, whatever it is, then the captured standard
    error if it is not empty, writes nothing else, and exits with status
    0.  When what the child wrote is not valid text, the dispatcher
    relays nothing, writes "Error: " followed by the decoding error to
    standard error, and exits with status 1. *)
Theorem C9_child_success_relayed (w : World) (args : Namespace)
    (cv : PyVal) (h : Handler) (cmd : list string) :
  args !! "command" = Some cv -> cv <> PyNone ->
  args !! "func" = Some (PyFunc h) ->
  In cmd (spawned (call_handler h w args)) ->
  (forall out err,
     run_outcome w cmd = Exited 0 out err ->
     exit_status (dispatch w args) = 0 /\
     trace (dispatch w args) =
       locator_probes w h ++
       ESubprocessRun cmd :: EPrint Stdout out ::
         (if String.eqb err "" then [] else [EPrint Stdout err]))
  /\ (forall msg,
        run_outcome w cmd = Undecodable 0 msg ->
        exit_status (dispatch w args) = 1 /\
        trace (dispatch w args) =
          locator_probes w h ++
          [ESubprocessRun cmd; EPrint Stderr (line ("Error: " +:+ msg))]).
Proof.
  intros Hc Hcv Hf Hin. split.
  - intros out err Hrun.
    rewrite (dispatch_handler w args cv h Hc Hcv Hf).
    destruct (handler_spawned h w args cmd Hin) as (parts & Hparts & E).
    rewrite E, (relay_success w _ parts cmd out err Hparts Hrun).
    unfold exit_status, result, trace. cbn. split; reflexivity.
  - intros msg Hrun.
    rewrite (undecodable_reported w args cv h cmd 0 msg Hc Hcv Hf Hin Hrun).
    split; reflexivity.
Qed.

Lemma C8_child_failure_reported_witness :
  exit_status (dispatch w_failing ns_subtask_list_P1) = 1.
Proof.
  refine (proj1 (proj1 (C8_child_failure_reported w_failing
                          ns_subtask_list_P1 (PyStr "subtask")
                          fn_run_subtask_cmd
                          ["/opt/app/subtaskctl"; "list"; "P1"] 1 _ _ _ _ _)
                   "partial" "boom" _)).
  - reflexivity.
  - discriminate.
  - reflexivity.
  - vm_compute. left. reflexivity.
  - discriminate.
  - reflexivity.
Defined.

Lemma C9_child_success_relayed_witness :
  trace (dispatch w_installed ns_add_list) =
    [EExists "/opt/app/reminderctl";
     ESubprocessRun ["/opt/app/reminderctl"; "add"; "Buy milk"; "--list";
                     "Groceries"];
     EPrint Stdout "done"].
Proof.
  refine (proj2 (proj1 (C9_child_success_relayed w_installed ns_add_list
                          (PyStr "add") fn_run_add_cmd
                          ["/opt/app/reminderctl"; "add"; "Buy milk";
                           "--list"; "Groceries"] _ _ _ _)
                   "done" "" _)).
  - reflexivity.
  - discriminate.
  - reflexivity.
  - vm_compute. left. reflexivity.
  - reflexivity.
Defined.

(** ** Argument vectors *)

(** C4.  [add] with the binary located at [p]: when only the list
    identifier is given the argument vector is [p add title --list l];
    when the section identifier is given it is [p add title --section s],
    and that also when a list identifier is given besides, which is then
    left out.  An identifier is given when it is a non-empty string. *)
Theorem C4_add_argument_vector (w : World) (args : Namespace)
    (title : string) (sv lv : PyVal) (p : string) :
  located w fn_run_add_cmd = Some p ->
  args !! "title" = Some (PyStr title) ->
  args !! "section_id" = Some sv ->
  args !! "list_id" = Some lv ->
  (forall l, truthy sv = false -> lv = PyStr l -> l <> "" ->
     spawned (run_add_cmd w args) = [[p; "add"; title; "--list"; l]])
  /\ (forall s, sv = PyStr s -> s <> "" ->
     spawned (run_add_cmd w args) = [[p; "add"; title; "--section"; s]])
  /\ (forall s l, sv = PyStr s -> s <> "" -> lv = PyStr l -> l <> "" ->
     spawned (run_add_cmd w args) = [[p; "add"; title; "--section"; s]]).
Proof.
  intros Hp Ht Hs Hl. revert Hp.
  assert (Hsec : forall s, sv = PyStr s -> s <> "" ->
            located w fn_run_add_cmd = Some p ->
            spawned (run_add_cmd w args) =
              [[p; "add"; title; "--section"; s]]).
  { intros s -> Hne%String.eqb_neq.
    py_open; py_locate; py_go; intros [= <-]; py_spawned. }
  intros Hp. split; [|split].
  - intros l Hsv -> Hne%String.eqb_neq. revert Hp.
    py_open; py_locate; py_go; intros [= <-]; py_spawned.
  - intros s Hsv Hne. exact (Hsec s Hsv Hne Hp).
  - intros s l Hsv Hne _ _. exact (Hsec s Hsv Hne Hp).
Qed.

Lemma C4_add_argument_vector_witness :
  spawned (run_add_cmd w_installed ns_add_list) =
    [["/opt/app/reminderctl"; "add"; "Buy milk"; "--list"; "Groceries"]].
Proof.
  refine (proj1 (C4_add_argument_vector w_installed ns_add_list "Buy milk"
                   PyNone (PyStr "Groceries") "/opt/app/reminderctl"
                   _ _ _ _) "Groceries" _ _ _);
    solve [reflexivity | discriminate].
Defined.

(** C5.  [section create]: when the list identifier or the display name
    is not given, no subprocess runs and, the binary being located, the
    handler raises the missing-field error; when both are given and the
    binary is located at [p], the argument vector is [p create l d]. *)
Theorem C5_section_create (w : World) (args : Namespace) (lv dv : PyVal) :
  args !! "operation" = Some (PyStr "create") ->
  args !! "list_id" = Some lv ->
  args !! "display_name" = Some dv ->
  (truthy lv = false \/ truthy dv = false ->
     spawned (run_section_cmd w args) = [] /\
     forall p, located w fn_run_section_cmd = Some p ->
       result (run_section_cmd w args) =
         Raise (ValueError
                  "Both --list-id and --display-name are required for create operation."))
  /\ (forall l d p, lv = PyStr l -> l <> "" -> dv = PyStr d -> d <> "" ->
        located w fn_run_section_cmd = Some p ->
        spawned (run_section_cmd w args) = [[p; "create"; l; d]]).
Proof.
  intros Hop Hl Hd. split.
  - intros Hmiss. split; [|intros p].
    + py_open; py_locate; py_go;
        destruct (truthy lv) eqn:Hlv; py_go;
        destruct Hmiss as [Hm | Hm]; try discriminate Hm;
        py_go; reflexivity.
    + py_open; py_locate; py_go; try discriminate;
        destruct (truthy lv) eqn:Hlv; py_go;
        destruct Hmiss as [Hm | Hm]; try discriminate Hm;
        py_go; reflexivity.
  - intros l d p -> Hl'%String.eqb_neq -> Hd'%String.eqb_neq.
    py_open; py_locate; py_go; intros [= <-]; py_spawned.
Qed.

Lemma C5_section_create_witness :
  spawned (run_section_cmd w_installed ns_section_create) =
    [["/opt/app/sectionctl"; "create"; "L1"; "Work"]].
Proof.
  refine (proj2 (C5_section_create w_installed ns_section_create
                   (PyStr "L1") (PyStr "Work") _ _ _)
            "L1" "Work" "/opt/app/sectionctl" _ _ _ _ _);
    solve [reflexivity | discriminate].
Defined.

(** C6.  [subtask update]: without a subtask identifier no subprocess runs
    and, the binary being located, the handler raises the missing-field
    error; with one and without a new title the argument vector is
    [p update sid], nothing standing for the title; with a new title it
    is [p update sid t]. *)
Theorem C6_subtask_update (w : World) (args : Namespace) (sv nv : PyVal) :
  args !! "operation" = Some (PyStr "update") ->
  args !! "subtask_id" = Some sv ->
  args !! "new_title" = Some nv ->
  (truthy sv = false ->
     spawned (run_subtask_cmd w args) = [] /\
     forall p, located w fn_run_subtask_cmd = Some p ->
       result (run_subtask_cmd w args) =
         Raise (ValueError "--subtask-id is required for update operation."))
  /\ (forall sid p, sv = PyStr sid -> sid <> "" -> truthy nv = false ->
        located w fn_run_subtask_cmd = Some p ->
        spawned (run_subtask_cmd w args) = [[p; "update"; sid]])
  /\ (forall sid t p, sv = PyStr sid -> sid <> "" ->
        nv = PyStr t -> t <> "" ->
        located w fn_run_subtask_cmd = Some p ->
        spawned (run_subtask_cmd w args) = [[p; "update"; sid; t]]).
Proof.
  intros Hop Hs Hn. split; [|split].
  - intros Hsv. split; [|intros p]; py_open; py_locate; py_go;
      solve [reflexivity | discriminate].
  - intros sid p -> Hne%String.eqb_neq Hnv.
    py_open; py_locate; py_go; intros [= <-]; py_spawned.
  - intros sid t p -> Hne%String.eqb_neq -> Hne'%String.eqb_neq.
    py_open; py_locate; py_go; intros [= <-]; py_spawned.
Qed.

Lemma C6_subtask_update_witness :
  spawned (run_subtask_cmd w_installed ns_subtask_update) =
    [["/opt/app/subtaskctl"; "update"; "S1"]].
Proof.
  refine (proj1 (proj2 (C6_subtask_update w_installed ns_subtask_update
                          (PyStr "S1") PyNone _ _ _))
            "S1" "/opt/app/subtaskctl" _ _ _ _);
    solve [reflexivity | discriminate].
Defined.

(** ** The top-level router *)

Lemma not_option_like_not_flag name flag :
  option_like name = false -> option_like flag = true ->
  String.eqb name flag = false.
Proof.
  intros Hn Hf. apply String.eqb_neq. intros ->. congruence.
Qed.

(** A command line that starts with a name no sub-parser was registered
    under ends in the parser's error, with exit status 2. *)
Lemma main_unregistered w name rest :
  option_like name = false -> name <> "subtask" ->
  main w (name :: rest) =
    ([EParserError (InvalidChoice name)], Raise (SystemExit 2)).
Proof.
  intros Hn Hne. unfold main, parse_args, subtask_parser.
  rewrite (not_option_like_not_flag name "--version" Hn eq_refl).
  rewrite (not_option_like_not_flag name "-h" Hn eq_refl).
  rewrite (not_option_like_not_flag name "--help" Hn eq_refl).
  cbn [orb]. rewrite Hn.
  rewrite lookup_insert_ne by congruence. rewrite lookup_empty.
  reflexivity.
Qed.

(** C1.  [main] registers the sub-parser of [subtask] only: [add] and
    [section] on the command line end in the parser's invalid-choice
    error with exit status 2, and neither [run_add_cmd] nor
    [run_section_cmd] is called, although [add_parser] and
    [section_parser] would register parsers that carry them. *)
Theorem C1_add_and_section_rejected (w : World) (rest : list string) :
  main w ("add" :: rest) =
    ([EParserError (InvalidChoice "add")], Raise (SystemExit 2))
  /\ main w ("section" :: rest) =
    ([EParserError (InvalidChoice "section")], Raise (SystemExit 2))
  /\ subtask_parser ∅ !! "subtask" = Some subtask_sp
  /\ defaults subtask_sp !! "func" = Some (PyFunc fn_run_subtask_cmd)
  /\ add_parser (subtask_parser ∅) !! "add" = Some add_ap
  /\ defaults add_ap !! "func" = Some (PyFunc fn_run_add_cmd)
  /\ section_parser (subtask_parser ∅) !! "section" = Some section_sp
  /\ defaults section_sp !! "func" = Some (PyFunc fn_run_section_cmd).
Proof.
  split; [|split].
  - apply main_unregistered; [reflexivity | discriminate].
  - apply main_unregistered; [reflexivity | discriminate].
  - repeat split; reflexivity.
Qed.

(** C7, as the claim states it, fails: an unrecognized sub-command gives
    exit status 2, not 1. *)
Lemma C7_unrecognized_exits_2 :
  exit_status (main w_installed ["frobnicate"]) = 2
  /\ exit_status (main w_installed ["frobnicate"]) <> 1.
Proof. split; [reflexivity | discriminate]. Qed.

(** C7, amended.  Without a sub-command [main] prints the help and exits
    with status 0.  With a first token that is not an option and not a
    registered sub-command, the parser reports an invalid choice (usage
    and message on standard error) and exits with status 2.  The branch
    that prints the help and exits with status 1 is the one of a parsed
    sub-command whose namespace has no [func]. *)
Theorem C7_usage_and_exit_status (w : World) (name : string)
    (rest : list string) :
  option_like name = false -> name <> "subtask" ->
  main w [] = ([EPrintHelp], Raise (SystemExit 0))
  /\ exit_status (main w []) = 0
  /\ main w (name :: rest) =
       ([EParserError (InvalidChoice name)], Raise (SystemExit 2))
  /\ exit_status (main w (name :: rest)) = 2
  /\ (forall (args : Namespace) cv,
        args !! "command" = Some cv -> cv <> PyNone ->
        args !! "func" = None ->
        dispatch w args = ([EPrintHelp], Raise (SystemExit 1))).
Proof.
  intros Hn Hne. split; [reflexivity|]. split; [reflexivity|].
  rewrite (main_unregistered w name rest Hn Hne).
  split; [reflexivity|]. split; [reflexivity|].
  intros args cv Hc Hcv Hf. unfold dispatch, getattr. rewrite Hc, Hf.
  cbn [bind ret]. destruct (decide (cv = PyNone)); [done|]. reflexivity.
Qed.

Lemma C7_usage_and_exit_status_witness :
  exit_status (main w_installed ("frobnicate" :: ["--now"])) = 2.
Proof.
  refine (proj1 (proj2 (proj2 (proj2
            (C7_usage_and_exit_status w_installed "frobnicate" ["--now"]
               _ _))))).
  - reflexivity.
  - discriminate.
Defined.

(** ** The locator *)

(** [run_section_cmd] and [run_subtask_cmd] search in the order of the
    specification; [handler_cases] ties [located] to the handlers. *)
Lemma located_section_subtask w h :
  h <> fn_run_add_cmd -> located w h = locator_of_spec w h.
Proof. intros Hh. destruct h; [done | reflexivity | reflexivity]. Qed.

(** C3.  With the binaries next to the package only, [run_add_cmd] stops
    after probing the primary path and raises the not-found error, where
    the search order of the specification settles on the fallback, as
    [run_section_cmd] does in the same installation. *)
Theorem C3_add_has_no_fallback :
  run_add_cmd w_package_dir ns_add_list =
    ([EExists "/opt/app/reminderctl"],
     Raise (FileNotFoundError
              "reminderctl binary not found at /opt/app/reminderctl. Make sure to compile reminderctl.swift first."))
  /\ locator_of_spec w_package_dir fn_run_add_cmd =
       Some "/opt/app/remindctl/reminderctl"
  /\ spawned (run_section_cmd w_package_dir ns_section_lists) =
       [["/opt/app/remindctl/sectionctl"; "lists"]].
Proof. repeat split; vm_compute; reflexivity. Qed.

(** ** Validation *)

(** A request that misses a required field ends before any subprocess: in
    the locator's error when no binary is found, in a [ValueError]
    otherwise.  The trace holds the locator's probes and nothing else. *)
Lemma missing_required_rejected h w args :
  parsed_by (parser_of h) args -> missing_required h args = true ->
  exists e,
    call_handler h w args = (locator_probes w h, Raise e) /\
    match located w h with
    | Some _ => exists msg, e = ValueError msg
    | None => e = FileNotFoundError (not_found_message w h)
    end.
Proof.
  intros Hp Hm. destruct h; py_attrs Hp;
    unfold missing_required, required_fields, present in Hm; revert Hm;
    py_open; name_literals;
    repeat first [py_rewrite; py_eval | py_split; py_eval];
    intros Hm; try discriminate Hm; try (exfalso; congruence);
    eexists; (split; [reflexivity|]); try reflexivity;
    eexists; reflexivity.
Qed.

Lemma missing_required_no_spawn h w args :
  parsed_by (parser_of h) args -> missing_required h args = true ->
  spawned (call_handler h w args) = []
  /\ trace (call_handler h w args) = locator_probes w h
  /\ match located w h with
     | Some _ =>
         exists msg, result (call_handler h w args) = Raise (ValueError msg)
     | None =>
         result (call_handler h w args) =
           Raise (FileNotFoundError (not_found_message w h))
     end.
Proof.
  intros Hp Hm.
  destruct (missing_required_rejected h w args Hp Hm) as (e & E & He).
  rewrite E. unfold spawned, trace, result. cbn [fst snd].
  split; [apply spawned_of_probes, locator_probes_only|].
  split; [reflexivity|].
  destruct (located w h); [|congruence].
  destruct He as [msg ->]. exists msg. reflexivity.
Qed.

(** C2, as the claim states it, fails: [subtask list] without
    [--parent-id] misses a required field, and where no binary is
    installed the handler ends in the locator's error after probing both
    paths; the missing field is not reported. *)
Lemma C2_locator_runs_before_validation :
  missing_required fn_run_subtask_cmd ns_subtask_list = true
  /\ run_subtask_cmd w_no_binary ns_subtask_list =
       ([EExists "/opt/app/subtaskctl";
         EExists "/opt/app/remindctl/subtaskctl"],
        Raise (FileNotFoundError
                 "subtaskctl binary not found. Expected at /opt/app/subtaskctl. Make sure to compile subtaskctl.swift first.")).
Proof. split; vm_compute; reflexivity. Qed.

(** C2, amended.  A request that misses a required field never reaches
    [subprocess.run].  The locator runs first, and its probes are the
    whole trace: when it finds the binary the handler raises a
    [ValueError] about the request; when it does not, the handler raises
    the locator's [FileNotFoundError] and the missing field goes
    unreported. *)
Theorem C2_missing_field_never_spawns (h : Handler) (w : World)
    (args : Namespace) :
  parsed_by (parser_of h) args -> missing_required h args = true ->
  spawned (call_handler h w args) = []
  /\ trace (call_handler h w args) = locator_probes w h
  /\ match located w h with
     | Some _ =>
         exists msg, result (call_handler h w args) = Raise (ValueError msg)
     | None =>
         result (call_handler h w args) =
           Raise (FileNotFoundError (not_found_message w h))
     end.
Proof. apply missing_required_no_spawn. Qed.

Lemma parsed_by_subtask_list : parsed_by subtask_sp ns_subtask_list.
Proof.
  unfold parsed_by. cbn [arguments subtask_sp].
  repeat (apply Forall_cons; split; [eexists; vm_compute; reflexivity|]).
  apply Forall_nil. exact I.
Qed.

Lemma C2_missing_field_never_spawns_witness :
  spawned (run_subtask_cmd w_installed ns_subtask_list) = []
  /\ trace (run_subtask_cmd w_installed ns_subtask_list) =
       [EExists "/opt/app/subtaskctl"; EExists "/opt/app/subtaskctl"].
Proof.
  destruct (C2_missing_field_never_spawns fn_run_subtask_cmd w_installed
              ns_subtask_list parsed_by_subtask_list eq_refl)
    as (Hs & Ht & _).
  split; [exact Hs | exact Ht].
Defined.

(** ** The empty string as a flag value *)

Lemma parsed_by_insert sp args k v :
  parsed_by sp args -> parsed_by sp (<[k := v]> args).
Proof.
  unfold parsed_by. intros Hp. eapply Forall_impl; [exact Hp|].
  intros a [x Hx].
  destruct (decide (dest a = k)) as [-> | Hne].
  - rewrite lookup_insert_eq. eexists. reflexivity.
  - rewrite lookup_insert_ne by congruence. eexists. exact Hx.
Qed.

(** A required field given as the empty string is a missing one. *)
Lemma required_empty_missing h args operation k :
  args !! "operation" = Some operation ->
  In k (required_fields h operation) ->
  missing_required h (<[k := PyStr ""]> args) = true.
Proof.
  intros Hop Hin.
  assert (Hk : k <> "operation").
  { intros ->. destruct h; unfold required_fields in Hin;
      repeat match goal with
             | H : context [decide ?P] |- _ => destruct (decide P)
             end;
      cbn in Hin; intuition discriminate. }
  destruct h; [destruct Hin | |];
    unfold missing_required; rewrite lookup_insert_ne by congruence;
    rewrite Hop; apply existsb_exists; exists k;
    (split; [exact Hin|]); unfold present; rewrite lookup_insert_eq;
    reflexivity.
Qed.

(** [subtask update] with the new title given as the empty string. *)
Lemma subtask_update_empty_title w args sid p :
  args !! "operation" = Some (PyStr "update") ->
  args !! "subtask_id" = Some (PyStr sid) -> sid <> "" ->
  located w fn_run_subtask_cmd = Some p ->
  spawned (run_subtask_cmd w (<["new_title" := PyStr ""]> args)) =
    [[p; "update"; sid]].
Proof.
  intros Hop Hs Hne%String.eqb_neq.
  assert (Hop' : (<["new_title" := PyStr ""]> args) !! "operation"
                 = Some (PyStr "update"))
    by (rewrite lookup_insert_ne by discriminate; exact Hop).
  assert (Hs' : (<["new_title" := PyStr ""]> args) !! "subtask_id"
                = Some (PyStr sid))
    by (rewrite lookup_insert_ne by discriminate; exact Hs).
  assert (Hn' : (<["new_title" := PyStr ""]> args) !! "new_title"
                = Some (PyStr ""))
    by apply lookup_insert_eq.
  clear Hop Hs. generalize dependent (<["new_title" := PyStr ""]> args).
  intros args' Hop Hs Hn.
  py_open; py_locate; py_go; intros [= <-]; py_spawned.
Qed.

Lemma insert_lookups (args : Namespace) k v :
  (<[k:=v]> args) !! k = Some v /\
  forall a, a <> k -> (<[k:=v]> args) !! a = args !! a.
Proof.
  split; [apply lookup_insert_eq|].
  intros a Ha. apply lookup_insert_ne. congruence.
Qed.

(** Records what every attribute of [<[k:=v]> args] is. *)
Ltac py_inserted args k v :=
  let Hk := fresh "Hk" in
  let Hne := fresh "Hne" in
  destruct (insert_lookups args k v) as [Hk Hne];
  let go a :=
    try (let H := fresh "Hk" in
         pose proof (Hne a ltac:(discriminate)) as H) in
  go "title"; go "section_id"; go "list_id"; go "operation";
  go "display_name"; go "parent_id"; go "subtask_id"; go "new_title";
  clear Hne.

Lemma truthy_empty : truthy (PyStr "") = false.
Proof. reflexivity. Qed.

Lemma truthy_None : truthy PyNone = false.
Proof. reflexivity. Qed.

(** A flag given as the empty string is to a handler what the flag left
    out is. *)
Lemma empty_as_absent h w args k :
  In k (flag_dests (parser_of h)) ->
  call_handler h w (<[k := PyStr ""]> args) =
  call_handler h w (<[k := PyNone]> args).
Proof.
  intros Hin.
  pose proof truthy_empty as He. pose proof truthy_None as Hn.
  destruct h; vm_compute in Hin;
    repeat match goal with
           | H : _ \/ _ |- _ => destruct H as [H | H]
           | H : False |- _ => destruct H
           end;
    subst k;
    match goal with
    | |- context [<[?k := _]> _] =>
        py_inserted args k (PyStr ""); py_inserted args k PyNone
    end.
  all: py_open;
    repeat match goal with
           | H : <[_:=_]> _ !! ?a = _ |- _ =>
               lazymatch goal with
               | |- context [a] => fail
               | _ => clear H
               end
           end;
    name_literals.
  all: repeat first [py_rewrite; py_eval | py_split; py_eval].
  all: reflexivity.
Qed.

(** C10.  For every flag [k] of a sub-command, a handler run on a request
    with [k] given as the empty string is the run on the request with [k]
    left out: same trace, same result.  So a required field given as the
    empty string is rejected without a subprocess, by a [ValueError] when
    the binary is located; and [subtask update] with the new title given
    as the empty string hands [p update sid] to the binary, the title
    left out. *)
Theorem C10_empty_flag_as_absent (h : Handler) (w : World)
    (args : Namespace) (k : string) :
  In k (flag_dests (parser_of h)) ->
  call_handler h w (<[k := PyStr ""]> args) =
    call_handler h w (<[k := PyNone]> args)
  /\ (forall operation,
        parsed_by (parser_of h) args ->
        args !! "operation" = Some operation ->
        In k (required_fields h operation) ->
        spawned (call_handler h w (<[k := PyStr ""]> args)) = []
        /\ forall p, located w h = Some p ->
             exists msg,
               result (call_handler h w (<[k := PyStr ""]> args)) =
                 Raise (ValueError msg))
  /\ (forall sid p,
        args !! "operation" = Some (PyStr "update") ->
        args !! "subtask_id" = Some (PyStr sid) -> sid <> "" ->
        located w fn_run_subtask_cmd = Some p ->
        spawned (run_subtask_cmd w (<["new_title" := PyStr ""]> args)) =
          [[p; "update"; sid]]
        /\ run_subtask_cmd w (<["new_title" := PyStr ""]> args) =
             run_subtask_cmd w (<["new_title" := PyNone]> args)).
Proof.
  intros Hin. split; [exact (empty_as_absent h w args k Hin)|]. split.
  - intros operation Hp Hop Hreq.
    destruct (missing_required_no_spawn h w (<[k := PyStr ""]> args)
                (parsed_by_insert _ _ _ _ Hp)
                (required_empty_missing h args operation k Hop Hreq))
      as (Hs & _ & Hr).
    split; [exact Hs|]. intros p Hloc. rewrite Hloc in Hr. exact Hr.
  - intros sid p Hop Hs Hne Hloc. split.
    + exact (subtask_update_empty_title w args sid p Hop Hs Hne Hloc).
    + apply (empty_as_absent fn_run_subtask_cmd w args "new_title").
      vm_compute. tauto.
Qed.

Lemma C10_empty_flag_as_absent_witness :
  run_subtask_cmd w_installed (<["parent_id" := PyStr ""]> ns_subtask_list)
    = run_subtask_cmd w_installed
        (<["parent_id" := PyNone]> ns_subtask_list)
  /\ spawned (run_subtask_cmd w_installed
                (<["parent_id" := PyStr ""]> ns_subtask_list)) = [].
Proof.
  assert (Hin : In "parent_id" (flag_dests (parser_of fn_run_subtask_cmd)))
    by (vm_compute; tauto).
  destruct (C10_empty_flag_as_absent fn_run_subtask_cmd w_installed
              ns_subtask_list "parent_id" Hin) as (Heq & Hreq & _).
  split; [exact Heq|].
  refine (proj1 (Hreq (PyStr "list") parsed_by_subtask_list eq_refl _)).
  vm_compute. tauto.
Defined.

(** ** The ways the final [try] block ends *)

Lemma relay_not_found w name cmd argv msg :
  as_argv cmd = Some argv ->
  run_outcome w argv = NotFound msg ->
  relay w name cmd =
    ([ESubprocessRun argv;
      EPrint Stdout (line ("Error: " +:+ msg +:+ ". Make sure '" +:+ name
                           +:+ "' is compiled and accessible."))],
     Raise (FileNotFoundError msg)).
Proof.
  intros Ha Hr. unfold relay, subprocess_run. rewrite Ha. cbn. rewrite Hr.
  reflexivity.
Qed.

Lemma relay_not_started w name cmd argv msg :
  as_argv cmd = Some argv ->
  run_outcome w argv = NotStarted msg ->
  relay w name cmd = ([ESubprocessRun argv], Raise (OSError msg)).
Proof.
  intros Ha Hr. unfold relay, subprocess_run. rewrite Ha. cbn. rewrite Hr.
  reflexivity.
Qed.

Lemma as_argv_cons p rest argv :
  as_argv (PyStr p :: rest) = Some argv ->
  exists l, as_argv rest = Some l /\ argv = p :: l.
Proof.
  cbn. destruct (as_argv rest) as [l|]; [|discriminate].
  intros [= <-]. exists l. split; reflexivity.
Qed.

Lemma located_exists w h p :
  located w h = Some p ->
  path_exists w p = true
  /\ (p = primary_path w h
      \/ (h <> fn_run_add_cmd /\ path_exists w (primary_path w h) = false
          /\ p = fallback_path w h)).
Proof.
  unfold located.
  destruct (path_exists w (primary_path w h)) eqn:E1.
  - intros [= <-]. split; [exact E1 | left; reflexivity].
  - destruct h; [discriminate | |];
      (destruct (path_exists w (fallback_path w _)) eqn:E2;
       [|discriminate]);
      intros [= <-]; (split; [exact E2|]); right;
      (split; [discriminate|]); split; reflexivity.
Qed.

(** What a run of a handler spawns: nothing, or one argument vector that
    starts with the located binary. *)
Lemma handler_spawned_cases h w args :
  spawned (call_handler h w args) = []
  \/ exists p l, located w h = Some p
       /\ spawned (call_handler h w args) = [p :: l].
Proof.
  destruct (handler_cases h w args)
    as [[_ E] | [(p & e & _ & _ & E) | (p & rest & Hloc & E)]];
    rewrite E; unfold spawned, trace; cbn [fst].
  - left. apply spawned_of_probes, locator_probes_only.
  - left. apply spawned_of_probes, locator_probes_only.
  - rewrite spawned_of_app,
      (spawned_of_probes _ (locator_probes_only w h)).
    cbn [app].
    pose proof (relay_spawned w (binary_name h) (PyStr p :: rest)) as Hr.
    unfold spawned, trace in Hr. rewrite Hr.
    destruct (as_argv (PyStr p :: rest)) as [argv|] eqn:Ha;
      [|left; reflexivity].
    destruct (as_argv_cons _ _ _ Ha) as (l & _ & ->).
    right. exists p, l. split; [exact Hloc | reflexivity].
Qed.

(** X1.  A handler starts at most one child process, and the program it
    starts is the binary its locator settled on: a path that
    [os.path.exists] answered true for, the primary path if it exists and
    the fallback otherwise. *)
Theorem handler_runs_located_binary_once (h : Handler) (w : World)
    (args : Namespace) (cmd : list string) :
  In cmd (spawned (call_handler h w args)) ->
  spawned (call_handler h w args) = [cmd]
  /\ exists p l, cmd = p :: l /\ located w h = Some p
       /\ path_exists w p = true
       /\ (p = primary_path w h
           \/ (h <> fn_run_add_cmd
               /\ path_exists w (primary_path w h) = false
               /\ p = fallback_path w h)).
Proof.
  intros Hin.
  destruct (handler_spawned_cases h w args) as [E | (p & l & Hloc & E)];
    rewrite E in Hin |- *; [destruct Hin|].
  destruct Hin as [<- | []]. split; [reflexivity|].
  exists p, l. split; [reflexivity|]. split; [exact Hloc|].
  exact (located_exists w h p Hloc).
Qed.

Lemma handler_runs_located_binary_once_witness :
  spawned (run_section_cmd w_package_dir ns_section_lists) =
    [["/opt/app/remindctl/sectionctl"; "lists"]].
Proof.
  refine (proj1 (handler_runs_located_binary_once fn_run_section_cmd
                   w_package_dir ns_section_lists
                   ["/opt/app/remindctl/sectionctl"; "lists"] _)).
  vm_compute. left. reflexivity.
Defined.

(** X2.  Without a binary the dispatcher does nothing but probe and
    report, whatever the request: the trace is the locator's probes and
    one line on standard error, "Error: " and the not-found message that
    names the primary path; the exit status is 1. *)
Theorem no_binary_reported (w : World) (args : Namespace) (cv : PyVal)
    (h : Handler) :
  args !! "command" = Some cv -> cv <> PyNone ->
  args !! "func" = Some (PyFunc h) ->
  located w h = None ->
  dispatch w args =
    (locator_probes w h
       ++ [EPrint Stderr (line ("Error: " +:+ not_found_message w h))],
     Raise (SystemExit 1)).
Proof.
  intros Hc Hcv Hf Hloc.
  rewrite (dispatch_handler w args cv h Hc Hcv Hf).
  destruct (handler_cases h w args)
    as [[_ E] | [(p & e & Hp & _) | (p & rest & Hp & _)]];
    [| congruence | congruence].
  rewrite E. reflexivity.
Qed.

Lemma no_binary_reported_witness :
  dispatch w_no_binary ns_add_list =
    ([EExists "/opt/app/reminderctl";
      EPrint Stderr
        (line "Error: reminderctl binary not found at /opt/app/reminderctl. Make sure to compile reminderctl.swift first.")],
     Raise (SystemExit 1)).
Proof.
  apply (no_binary_reported w_no_binary ns_add_list (PyStr "add")
           fn_run_add_cmd).
  - reflexivity.
  - discriminate.
  - reflexivity.
  - reflexivity.
Defined.

(** X3.  When the binary the locator found cannot be started because it
    is no longer there, the handler writes "Error: ... Make sure '<name>'
    is compiled and accessible." on standard output and raises the error
    again; the dispatcher then writes "Error: ..." on standard error and
    exits with status 1. *)
Theorem child_not_found_reported (w : World) (args : Namespace)
    (cv : PyVal) (h : Handler) (cmd : list string) (msg : string) :
  args !! "command" = Some cv -> cv <> PyNone ->
  args !! "func" = Some (PyFunc h) ->
  In cmd (spawned (call_handler h w args)) ->
  run_outcome w cmd = NotFound msg ->
  dispatch w args =
    (locator_probes w h ++
     [ESubprocessRun cmd;
      EPrint Stdout (line ("Error: " +:+ msg +:+ ". Make sure '"
                           +:+ binary_name h
                           +:+ "' is compiled and accessible."));
      EPrint Stderr (line ("Error: " +:+ msg))],
     Raise (SystemExit 1)).
Proof.
  intros Hc Hcv Hf Hin Hrun.
  rewrite (dispatch_handler w args cv h Hc Hcv Hf).
  destruct (handler_spawned h w args cmd Hin) as (parts & Hparts & E).
  rewrite E, (relay_not_found w _ parts cmd msg Hparts Hrun).
  unfold result, trace. cbn. rewrite <- app_assoc. reflexivity.
Qed.

Lemma child_not_found_reported_witness :
  dispatch w_vanishing ns_subtask_list_P1 =
    ([EExists "/opt/app/subtaskctl"; EExists "/opt/app/subtaskctl";
      ESubprocessRun ["/opt/app/subtaskctl"; "list"; "P1"];
      EPrint Stdout
        (line "Error: [Errno 2] No such file or directory. Make sure 'subtaskctl' is compiled and accessible.");
      EPrint Stderr (line "Error: [Errno 2] No such file or directory")],
     Raise (SystemExit 1)).
Proof.
  apply (child_not_found_reported w_vanishing ns_subtask_list_P1
           (PyStr "subtask") fn_run_subtask_cmd
           ["/opt/app/subtaskctl"; "list"; "P1"]
           "[Errno 2] No such file or directory").
  - reflexivity.
  - discriminate.
  - reflexivity.
  - vm_compute. left. reflexivity.
  - reflexivity.
Defined.

(** X4.  When the binary cannot be started for another reason of the
    operating system, no [except] clause of the handler applies: the
    handler writes nothing, and the dispatcher writes "Error: ..." on
    standard error and exits with status 1. *)
Theorem child_not_started_reported (w : World) (args : Namespace)
    (cv : PyVal) (h : Handler) (cmd : list string) (msg : string) :
  args !! "command" = Some cv -> cv <> PyNone ->
  args !! "func" = Some (PyFunc h) ->
  In cmd (spawned (call_handler h w args)) ->
  run_outcome w cmd = NotStarted msg ->
  dispatch w args =
    (locator_probes w h ++
     [ESubprocessRun cmd; EPrint Stderr (line ("Error: " +:+ msg))],
     Raise (SystemExit 1)).
Proof.
  intros Hc Hcv Hf Hin Hrun.
  rewrite (dispatch_handler w args cv h Hc Hcv Hf).
  destruct (handler_spawned h w args cmd Hin) as (parts & Hparts & E).
  rewrite E, (relay_not_started w _ parts cmd msg Hparts Hrun).
  unfold result, trace. cbn. rewrite <- app_assoc. reflexivity.
Qed.

Lemma child_not_started_reported_witness :
  dispatch w_not_executable ns_subtask_list_P1 =
    ([EExists "/opt/app/subtaskctl"; EExists "/opt/app/subtaskctl";
      ESubprocessRun ["/opt/app/subtaskctl"; "list"; "P1"];
      EPrint Stderr (line "Error: [Errno 13] Permission denied")],
     Raise (SystemExit 1)).
Proof.
  apply (child_not_started_reported w_not_executable ns_subtask_list_P1
           (PyStr "subtask") fn_run_subtask_cmd
           ["/opt/app/subtaskctl"; "list"; "P1"]
           "[Errno 13] Permission denied").
  - reflexivity.
  - discriminate.
  - reflexivity.
  - vm_compute. left. reflexivity.
  - reflexivity.
Defined.

(** ** How a run ends *)

Lemma written_app f t1 t2 :
  written f (t1 ++ t2) = written f t1 ++ written f t2.
Proof. unfold written. apply omap_app. Qed.

Lemma written_probes f t : only_probes t -> written f t = [].
Proof.
  unfold only_probes. induction t as [| ev t IH]; [reflexivity |].
  destruct ev; cbn; try discriminate. exact IH.
Qed.

Lemma relay_invalid_argument w name cmd argv msg :
  as_argv cmd = Some argv ->
  run_outcome w argv = InvalidArgument msg ->
  relay w name cmd = ([ESubprocessRun argv], Raise (ValueError msg)).
Proof.
  intros Ha Hr. unfold relay, subprocess_run. rewrite Ha. cbn. rewrite Hr.
  reflexivity.
Qed.

(** The final [try] block ends in one of seven ways. *)
Lemma relay_cases w name cmd :
  match as_argv cmd with
  | None =>
      relay w name cmd =
        ([], Raise (TypeError "expected str, bytes or os.PathLike object"))
  | Some argv =>
      match run_outcome w argv with
      | Exited rc out err =>
          if rc =? 0 then
            relay w name cmd =
              (ESubprocessRun argv :: EPrint Stdout out ::
                 (if String.eqb err "" then [] else [EPrint Stdout err]),
               Ok tt)
          else
            relay w name cmd =
              ([ESubprocessRun argv;
                EPrint Stdout
                  (line ("Error running " +:+ name +:+ ": "
                         +:+ CalledProcessError_str w rc argv));
                EPrint Stdout (line ("Stdout: " +:+ out));
                EPrint Stdout (line ("Stderr: " +:+ err))],
               Raise (CalledProcessError rc argv out err))
      | NotFound msg =>
          relay w name cmd =
            ([ESubprocessRun argv;
              EPrint Stdout (line ("Error: " +:+ msg +:+ ". Make sure '"
                                   +:+ name
                                   +:+ "' is compiled and accessible."))],
             Raise (FileNotFoundError msg))
      | NotStarted msg =>
          relay w name cmd = ([ESubprocessRun argv], Raise (OSError msg))
      | Undecodable _ msg =>
          relay w name cmd =
            ([ESubprocessRun argv], Raise (UnicodeDecodeError msg))
      | InvalidArgument msg =>
          relay w name cmd = ([ESubprocessRun argv], Raise (ValueError msg))
      end
  end.
Proof.
  destruct (as_argv cmd) as [argv|] eqn:Ha;
    [|exact (relay_not_argv w name cmd Ha)].
  destruct (run_outcome w argv) as [rc out err|msg|msg|rc msg|msg] eqn:Hr.
  - destruct (rc =? 0) eqn:Hrc.
    + apply Z.eqb_eq in Hrc. subst rc.
      exact (relay_success w name cmd argv out err Ha Hr).
    + apply Z.eqb_neq in Hrc.
      exact (relay_failure w name cmd argv rc out err Ha Hr Hrc).
  - exact (relay_not_found w name cmd argv msg Ha Hr).
  - exact (relay_not_started w name cmd argv msg Ha Hr).
  - exact (relay_undecodable w name cmd argv rc msg Ha Hr).
  - exact (relay_invalid_argument w name cmd argv msg Ha Hr).
Qed.

(** The final [try] block writes on standard output only; it returns
    exactly when the child ran, exited with status 0 and wrote valid
    text, and raises an [Exception] otherwise. *)
Lemma relay_outcome w name cmd :
  written Stderr (trace (relay w name cmd)) = []
  /\ match result (relay w name cmd) with
     | Ok _ =>
         exists argv out err,
           as_argv cmd = Some argv /\ run_outcome w argv = Exited 0 out err
     | Raise e =>
         is_Exception e = true
         /\ forall argv out err,
              as_argv cmd = Some argv ->
              run_outcome w argv <> Exited 0 out err
     end.
Proof.
  pose proof (relay_cases w name cmd) as H.
  destruct (as_argv cmd) as [argv|]; [|rewrite H; cbn; repeat split; discriminate].
  destruct (run_outcome w argv) as [rc out err|msg|msg|rc msg|msg] eqn:Hr.
  - destruct (rc =? 0) eqn:Hrc; rewrite H; cbn.
    + apply Z.eqb_eq in Hrc. subst rc. split.
      * destruct (String.eqb err ""); reflexivity.
      * exists argv, out, err. split; [reflexivity | exact Hr].
    + apply Z.eqb_neq in Hrc. repeat split.
      intros argv' out' err' [= <-]. rewrite Hr. congruence.
  - rewrite H; cbn. repeat split.
    intros argv' out' err' [= <-]. rewrite Hr. discriminate.
  - rewrite H; cbn. repeat split.
    intros argv' out' err' [= <-]. rewrite Hr. discriminate.
  - rewrite H; cbn. repeat split.
    intros argv' out' err' [= <-]. rewrite Hr. discriminate.
  - rewrite H; cbn. repeat split.
    intros argv' out' err' [= <-]. rewrite Hr. discriminate.
Qed.

(** A handler writes on standard output only; it returns exactly when it
    ran its binary and the binary exited with status 0 after writing
    valid text, and raises an [Exception], never [SystemExit],
    otherwise. *)
Lemma handler_outcome h w args :
  written Stderr (trace (call_handler h w args)) = []
  /\ match result (call_handler h w args) with
     | Ok _ =>
         exists cmd out err,
           spawned (call_handler h w args) = [cmd]
           /\ run_outcome w cmd = Exited 0 out err
     | Raise e =>
         is_Exception e = true
         /\ forall cmd out err,
              spawned (call_handler h w args) = [cmd] ->
              run_outcome w cmd <> Exited 0 out err
     end.
Proof.
  destruct (handler_cases h w args)
    as [[_ E] | [(p & e & _ & He & E) | (p & rest & Hloc & E)]];
    rewrite E; unfold spawned, trace, result; cbn [fst snd].
  - split; [apply written_probes, locator_probes_only|].
    split; [reflexivity|]. intros cmd out err.
    rewrite (spawned_of_probes _ (locator_probes_only w h)). discriminate.
  - split; [apply written_probes, locator_probes_only|].
    split; [destruct e; first [reflexivity | destruct He]|].
    intros cmd out err.
    rewrite (spawned_of_probes _ (locator_probes_only w h)). discriminate.
  - pose proof (relay_outcome w (binary_name h) (PyStr p :: rest))
      as [Hw Hr].
    pose proof (relay_spawned w (binary_name h) (PyStr p :: rest)) as Hs.
    unfold spawned, trace, result in Hw, Hr, Hs.
    rewrite written_app, spawned_of_app, Hw, Hs,
      (written_probes _ _ (locator_probes_only w h)),
      (spawned_of_probes _ (locator_probes_only w h)).
    split; [reflexivity|]. cbn [app].
    destruct (snd (relay w (binary_name h) (PyStr p :: rest))) as [u|e].
    + destruct Hr as (argv & out & err & Ha & Ho).
      exists argv, out, err. rewrite Ha. split; [reflexivity | exact Ho].
    + destruct Hr as [He Hr]. split; [exact He|].
      intros cmd out err.
      destruct (as_argv (PyStr p :: rest)) as [argv|]; [|discriminate].
      intros [= <-]. apply Hr. reflexivity.
Qed.

(** X5.  The dispatcher exits with status 0 exactly when the handler ran
    its binary and [subprocess.run] returned: the binary exited with
    status 0 and what it wrote was decoded as text.  In every other case
    of a routed request it exits with status 1; one of them is a binary
    that ran to the end, with status 0 or another, and wrote something
    that is not valid text. *)
Theorem exit_status_0_iff_child_succeeded (w : World) (args : Namespace)
    (cv : PyVal) (h : Handler) :
  args !! "command" = Some cv -> cv <> PyNone ->
  args !! "func" = Some (PyFunc h) ->
  (exit_status (dispatch w args) = 0
   <-> exists cmd out err,
         spawned (call_handler h w args) = [cmd]
         /\ run_outcome w cmd = Exited 0 out err)
  /\ (exit_status (dispatch w args) = 0
      \/ exit_status (dispatch w args) = 1)
  /\ (forall cmd rc msg,
        spawned (call_handler h w args) = [cmd] ->
        run_outcome w cmd = Undecodable rc msg ->
        exit_status (dispatch w args) = 1).
Proof.
  intros Hc Hcv Hf.
  rewrite (dispatch_handler w args cv h Hc Hcv Hf).
  destruct (handler_outcome h w args) as [_ H].
  unfold result in H.
  destruct (call_handler h w args) as [t [u|e]] eqn:E; cbn [snd] in H.
  - cbn. split; [split; [intros _; exact H | reflexivity]|].
    split; [left; reflexivity|].
    intros cmd rc msg Hs Ho. destruct H as (cmd' & out & err & Hs' & Ho').
    assert (Heq : [cmd'] = [cmd])
      by (etransitivity; [symmetry; exact Hs' | exact Hs]).
    injection Heq as ->. rewrite Ho in Ho'. discriminate Ho'.
  - destruct H as [He H]. unfold try_except, report_error. rewrite He.
    cbn. split; [|split; [right; reflexivity | reflexivity]].
    split; [discriminate|].
    intros (cmd & out & err & Hs & Ho). destruct (H cmd out err Hs Ho).
Qed.

Lemma exit_status_0_iff_child_succeeded_witness :
  exit_status (dispatch w_installed ns_subtask_list_P1) = 0.
Proof.
  apply (proj1 (exit_status_0_iff_child_succeeded w_installed
                  ns_subtask_list_P1 (PyStr "subtask") fn_run_subtask_cmd
                  eq_refl ltac:(discriminate) eq_refl)).
  exists ["/opt/app/subtaskctl"; "list"; "P1"], "done", "".
  split; reflexivity.
Defined.

(** X6.  A handler never writes on standard error.  The dispatcher adds
    nothing to what the handler wrote on standard output, and writes on
    standard error exactly one line, "Error: " followed by the text of
    the exception, when the handler raised, and nothing when it
    returned. *)
Theorem only_error_line_on_stderr (w : World) (args : Namespace)
    (cv : PyVal) (h : Handler) :
  args !! "command" = Some cv -> cv <> PyNone ->
  args !! "func" = Some (PyFunc h) ->
  written Stderr (trace (call_handler h w args)) = []
  /\ written Stdout (trace (dispatch w args)) =
       written Stdout (trace (call_handler h w args))
  /\ written Stderr (trace (dispatch w args)) =
       match result (call_handler h w args) with
       | Ok _ => []
       | Raise e => [line ("Error: " +:+ exn_str w e)]
       end.
Proof.
  intros Hc Hcv Hf.
  rewrite (dispatch_handler w args cv h Hc Hcv Hf).
  destruct (handler_outcome h w args) as [Hw H].
  split; [exact Hw|].
  unfold result, trace in *.
  destruct (call_handler h w args) as [t [u|e]] eqn:E;
    cbn [fst snd] in *.
  - split; [reflexivity | exact Hw].
  - destruct H as [He _]. unfold try_except, report_error. rewrite He.
    cbn [bind print tell raise fst]. cbn -[line String.append written].
    rewrite !written_app, Hw. cbn. rewrite app_nil_r.
    split; reflexivity.
Qed.

Lemma only_error_line_on_stderr_witness :
  written Stderr (trace (dispatch w_failing ns_subtask_list_P1)) =
    [line "Error: Command returned non-zero exit status"].
Proof.
  exact (proj2 (proj2 (only_error_line_on_stderr w_failing
                         ns_subtask_list_P1 (PyStr "subtask")
                         fn_run_subtask_cmd eq_refl ltac:(discriminate)
                         eq_refl))).
Defined.

(** ** The operations one by one *)

(** The argument vector of a run that gets to the final [try] block. *)
Ltac py_vector :=
  py_open; py_locate; py_go; intros [= <-]; py_spawned.

(** A run that stops at a [raise]. *)
Ltac py_rejected :=
  py_open; py_locate; py_go; solve [reflexivity | discriminate].

(** X7.  [add] with neither a section nor a list identifier: no
    subprocess runs and, the binary being located, the handler raises
    "Either --section or --list must be specified". *)
Theorem add_without_target (w : World) (args : Namespace)
    (tv sv lv : PyVal) :
  args !! "title" = Some tv ->
  args !! "section_id" = Some sv ->
  args !! "list_id" = Some lv ->
  truthy sv = false -> truthy lv = false ->
  spawned (run_add_cmd w args) = []
  /\ forall p, located w fn_run_add_cmd = Some p ->
       result (run_add_cmd w args) =
         Raise (ValueError "Either --section or --list must be specified").
Proof.
  intros Ht Hs Hl Hsv Hlv. split; [|intros p]; py_rejected.
Qed.

Lemma add_without_target_witness :
  result (run_add_cmd w_installed
            (<["list_id" := PyStr ""]> ns_add_list)) =
    Raise (ValueError "Either --section or --list must be specified").
Proof.
  refine (proj2 (add_without_target w_installed
                   (<["list_id" := PyStr ""]> ns_add_list)
                   (PyStr "Buy milk") PyNone (PyStr "") _ _ _ _ _)
            "/opt/app/reminderctl" _);
    reflexivity.
Defined.

(** X8.  [section list]: the list identifier is optional.  Without one
    the argument vector is [p list]; with one it is [p list l]. *)
Theorem section_list_vector (w : World) (args : Namespace) (lv : PyVal) :
  args !! "operation" = Some (PyStr "list") ->
  args !! "list_id" = Some lv ->
  (forall p, truthy lv = false ->
     located w fn_run_section_cmd = Some p ->
     spawned (run_section_cmd w args) = [[p; "list"]])
  /\ (forall l p, lv = PyStr l -> l <> "" ->
        located w fn_run_section_cmd = Some p ->
        spawned (run_section_cmd w args) = [[p; "list"; l]]).
Proof.
  intros Hop Hl. split.
  - intros p Hlv. py_vector.
  - intros l p -> Hne%String.eqb_neq. py_vector.
Qed.

Lemma section_list_vector_witness :
  spawned (run_section_cmd w_installed
             (<["operation" := PyStr "list"]> ns_section_create)) =
    [["/opt/app/sectionctl"; "list"; "L1"]].
Proof.
  refine (proj2 (section_list_vector w_installed
                   (<["operation" := PyStr "list"]> ns_section_create)
                   (PyStr "L1") _ _)
            "L1" "/opt/app/sectionctl" _ _ _);
    solve [reflexivity | discriminate].
Defined.

(** X9.  [section lists] reads no flag: whatever else the request holds,
    the argument vector is [p lists]. *)
Theorem section_lists_vector (w : World) (args : Namespace) (p : string) :
  args !! "operation" = Some (PyStr "lists") ->
  located w fn_run_section_cmd = Some p ->
  spawned (run_section_cmd w args) = [[p; "lists"]].
Proof.
  intros Hop. py_vector.
Qed.

Lemma section_lists_vector_witness :
  spawned (run_section_cmd w_installed
             (<["operation" := PyStr "lists"]> ns_section_create)) =
    [["/opt/app/sectionctl"; "lists"]].
Proof.
  apply (section_lists_vector w_installed
           (<["operation" := PyStr "lists"]> ns_section_create)
           "/opt/app/sectionctl"); reflexivity.
Defined.

(** X10.  [section update]: when the section identifier or the display
    name is not given, no subprocess runs and, the binary being located,
    the handler raises the missing-field error; when both are given the
    argument vector is [p update s d]. *)
Theorem section_update_vector (w : World) (args : Namespace)
    (sv dv : PyVal) :
  args !! "operation" = Some (PyStr "update") ->
  args !! "section_id" = Some sv ->
  args !! "display_name" = Some dv ->
  (truthy sv = false \/ truthy dv = false ->
     spawned (run_section_cmd w args) = [] /\
     forall p, located w fn_run_section_cmd = Some p ->
       result (run_section_cmd w args) =
         Raise (ValueError
                  "Both --section-id and --display-name are required for update operation."))
  /\ (forall s d p, sv = PyStr s -> s <> "" -> dv = PyStr d -> d <> "" ->
        located w fn_run_section_cmd = Some p ->
        spawned (run_section_cmd w args) = [[p; "update"; s; d]]).
Proof.
  intros Hop Hs Hd. split.
  - intros Hmiss. split; [|intros p].
    + py_open; py_locate; py_go;
        destruct (truthy sv) eqn:Hsv; py_go;
        destruct Hmiss as [Hm | Hm]; try discriminate Hm;
        py_go; reflexivity.
    + py_open; py_locate; py_go; try discriminate;
        destruct (truthy sv) eqn:Hsv; py_go;
        destruct Hmiss as [Hm | Hm]; try discriminate Hm;
        py_go; reflexivity.
  - intros s d p -> Hs'%String.eqb_neq -> Hd'%String.eqb_neq. py_vector.
Qed.

Lemma section_update_vector_witness :
  spawned (run_section_cmd w_installed
             (<["operation" := PyStr "update"]>
                (<["section_id" := PyStr "S9"]> ns_section_create))) =
    [["/opt/app/sectionctl"; "update"; "S9"; "Work"]].
Proof.
  refine (proj2 (section_update_vector w_installed
                   (<["operation" := PyStr "update"]>
                      (<["section_id" := PyStr "S9"]> ns_section_create))
                   (PyStr "S9") (PyStr "Work") _ _ _)
            "S9" "Work" "/opt/app/sectionctl" _ _ _ _ _);
    solve [reflexivity | discriminate].
Defined.

(** X11.  [section delete]: without a section identifier no subprocess
    runs and, the binary being located, the handler raises the
    missing-field error; with one the argument vector is [p delete s],
    whatever the other flags are. *)
Theorem section_delete_vector (w : World) (args : Namespace) (sv : PyVal) :
  args !! "operation" = Some (PyStr "delete") ->
  args !! "section_id" = Some sv ->
  (truthy sv = false ->
     spawned (run_section_cmd w args) = [] /\
     forall p, located w fn_run_section_cmd = Some p ->
       result (run_section_cmd w args) =
         Raise (ValueError "--section-id is required for delete operation."))
  /\ (forall s p, sv = PyStr s -> s <> "" ->
        located w fn_run_section_cmd = Some p ->
        spawned (run_section_cmd w args) = [[p; "delete"; s]]).
Proof.
  intros Hop Hs. split.
  - intros Hsv. split; [|intros p]; py_rejected.
  - intros s p -> Hne%String.eqb_neq. py_vector.
Qed.

Lemma section_delete_vector_witness :
  result (run_section_cmd w_installed
            (<["operation" := PyStr "delete"]> ns_section_create)) =
    Raise (ValueError "--section-id is required for delete operation.").
Proof.
  refine (proj2 (proj1 (section_delete_vector w_installed
                          (<["operation" := PyStr "delete"]>
                             ns_section_create)
                          PyNone _ _) _)
            "/opt/app/sectionctl" _);
    reflexivity.
Defined.

(** X12.  [subtask create]: when the parent identifier or the title is
    not given, no subprocess runs and, the binary being located, the
    handler raises the missing-field error; when both are given the
    argument vector is [p create parent title]. *)
Theorem subtask_create_vector (w : World) (args : Namespace)
    (pv tv : PyVal) :
  args !! "operation" = Some (PyStr "create") ->
  args !! "parent_id" = Some pv ->
  args !! "title" = Some tv ->
  (truthy pv = false \/ truthy tv = false ->
     spawned (run_subtask_cmd w args) = [] /\
     forall p, located w fn_run_subtask_cmd = Some p ->
       result (run_subtask_cmd w args) =
         Raise (ValueError
                  "Both --parent-id and --title are required for create operation."))
  /\ (forall parent t p, pv = PyStr parent -> parent <> "" ->
        tv = PyStr t -> t <> "" ->
        located w fn_run_subtask_cmd = Some p ->
        spawned (run_subtask_cmd w args) = [[p; "create"; parent; t]]).
Proof.
  intros Hop Hp Ht. split.
  - intros Hmiss. split; [|intros p].
    + py_open; py_locate; py_go;
        destruct (truthy pv) eqn:Hpv; py_go;
        destruct Hmiss as [Hm | Hm]; try discriminate Hm;
        py_go; reflexivity.
    + py_open; py_locate; py_go; try discriminate;
        destruct (truthy pv) eqn:Hpv; py_go;
        destruct Hmiss as [Hm | Hm]; try discriminate Hm;
        py_go; reflexivity.
  - intros parent t p -> Hp'%String.eqb_neq -> Ht'%String.eqb_neq.
    py_vector.
Qed.

Lemma subtask_create_vector_witness :
  spawned (run_subtask_cmd w_installed
             (<["operation" := PyStr "create"]>
                (<["title" := PyStr "Call back"]> ns_subtask_list_P1))) =
    [["/opt/app/subtaskctl"; "create"; "P1"; "Call back"]].
Proof.
  refine (proj2 (subtask_create_vector w_installed
                   (<["operation" := PyStr "create"]>
                      (<["title" := PyStr "Call back"]> ns_subtask_list_P1))
                   (PyStr "P1") (PyStr "Call back") _ _ _)
            "P1" "Call back" "/opt/app/subtaskctl" _ _ _ _ _);
    solve [reflexivity | discriminate].
Defined.

(** X13.  [subtask list]: without a parent identifier no subprocess runs
    and, the binary being located, the handler raises the missing-field
    error; with one the argument vector is [p list parent]. *)
Theorem subtask_list_vector (w : World) (args : Namespace) (pv : PyVal) :
  args !! "operation" = Some (PyStr "list") ->
  args !! "parent_id" = Some pv ->
  (truthy pv = false ->
     spawned (run_subtask_cmd w args) = [] /\
     forall p, located w fn_run_subtask_cmd = Some p ->
       result (run_subtask_cmd w args) =
         Raise (ValueError "--parent-id is required for list operation."))
  /\ (forall parent p, pv = PyStr parent -> parent <> "" ->
        located w fn_run_subtask_cmd = Some p ->
        spawned (run_subtask_cmd w args) = [[p; "list"; parent]]).
Proof.
  intros Hop Hp. split.
  - intros Hpv. split; [|intros p]; py_rejected.
  - intros parent p -> Hne%String.eqb_neq. py_vector.
Qed.

Lemma subtask_list_vector_witness :
  spawned (run_subtask_cmd w_installed ns_subtask_list_P1) =
    [["/opt/app/subtaskctl"; "list"; "P1"]].
Proof.
  refine (proj2 (subtask_list_vector w_installed ns_subtask_list_P1
                   (PyStr "P1") _ _)
            "P1" "/opt/app/subtaskctl" _ _ _);
    solve [reflexivity | discriminate].
Defined.

(** X14.  [subtask delete]: without a subtask identifier no subprocess
    runs and, the binary being located, the handler raises the
    missing-field error; with one the argument vector is [p delete sid],
    whatever the other flags are. *)
Theorem subtask_delete_vector (w : World) (args : Namespace) (sv : PyVal) :
  args !! "operation" = Some (PyStr "delete") ->
  args !! "subtask_id" = Some sv ->
  (truthy sv = false ->
     spawned (run_subtask_cmd w args) = [] /\
     forall p, located w fn_run_subtask_cmd = Some p ->
       result (run_subtask_cmd w args) =
         Raise (ValueError "--subtask-id is required for delete operation."))
  /\ (forall sid p, sv = PyStr sid -> sid <> "" ->
        located w fn_run_subtask_cmd = Some p ->
        spawned (run_subtask_cmd w args) = [[p; "delete"; sid]]).
Proof.
  intros Hop Hs. split.
  - intros Hsv. split; [|intros p]; py_rejected.
  - intros sid p -> Hne%String.eqb_neq. py_vector.
Qed.

Lemma subtask_delete_vector_witness :
  spawned (run_subtask_cmd w_installed
             (<["operation" := PyStr "delete"]> ns_subtask_update)) =
    [["/opt/app/subtaskctl"; "delete"; "S1"]].
Proof.
  refine (proj2 (subtask_delete_vector w_installed
                   (<["operation" := PyStr "delete"]> ns_subtask_update)
                   (PyStr "S1") _ _)
            "S1" "/opt/app/subtaskctl" _ _ _);
    solve [reflexivity | discriminate].
Defined.

(** ** What a handler reads *)

(** Two requests that agree on the attributes a sub-parser declares give
    the same run of its handler. *)
Lemma handler_frame h w args args' :
  (forall a, In a (arguments (parser_of h)) ->
     args !! dest a = args' !! dest a) ->
  call_handler h w args = call_handler h w args'.
Proof.
  intros H.
  assert (Hd : forall d, In d (dest <$> arguments (parser_of h)) ->
                 args !! d = args' !! d).
  { intros d Hin. apply in_map_iff in Hin. destruct Hin as (a & <- & Ha).
    exact (H a Ha). }
  clear H.
  destruct h; cbn in Hd;
    unfold call_handler, run_add_cmd, run_section_cmd, run_subtask_cmd,
      getattr;
    repeat match goal with
           | |- context [args !! ?d] =>
               rewrite (Hd d) by (cbn; tauto)
           end;
    reflexivity.
Qed.

(** X15.  A handler reads the attributes its sub-parser declares and no
    other: two requests that agree on them give the same run. *)
Theorem handler_reads_declared_attributes (h : Handler) (w : World)
    (args args' : Namespace) :
  (forall a, In a (arguments (parser_of h)) ->
     args !! dest a = args' !! dest a) ->
  call_handler h w args = call_handler h w args'.
Proof. exact (handler_frame h w args args'). Qed.

Lemma handler_reads_declared_attributes_witness :
  run_subtask_cmd w_installed
    (<["func" := PyNone]> ns_subtask_list_P1) =
  run_subtask_cmd w_installed ns_subtask_list_P1.
Proof.
  apply (handler_reads_declared_attributes fn_run_subtask_cmd w_installed).
  intros a Ha. apply lookup_insert_ne.
  cbn in Ha. intuition (subst; discriminate).
Defined.

(** ** The operations of the parser and of the handler *)

Lemma not_choice_section op :
  (forall s, op = PyStr s ->
     ~ In s (operation_choices (parser_of fn_run_section_cmd))) ->
  op <> PyStr "create" /\ op <> PyStr "list" /\ op <> PyStr "update"
  /\ op <> PyStr "delete" /\ op <> PyStr "lists".
Proof.
  intros H. repeat split; intros ->;
    eapply H; try reflexivity; vm_compute; tauto.
Qed.

Lemma not_choice_subtask op :
  (forall s, op = PyStr s ->
     ~ In s (operation_choices (parser_of fn_run_subtask_cmd))) ->
  op <> PyStr "create" /\ op <> PyStr "list" /\ op <> PyStr "update"
  /\ op <> PyStr "delete".
Proof.
  intros H. repeat split; intros ->;
    eapply H; try reflexivity; vm_compute; tauto.
Qed.

(** Decides a comparison the hypotheses settle. *)
Ltac py_decide_hyp :=
  match goal with
  | |- context [decide (?a = ?b)] =>
      let H := fresh "Hd" in
      destruct (decide (a = b)) as [H | H]; [exfalso; congruence|]
  end.

(** X16.  An operation that is not among the choices of the sub-parser is
    refused by the handler itself: no subprocess runs and, the binary
    being located, the handler raises "Unsupported section operation: "
    or "Unsupported subtask operation: " followed by the operation. *)
Theorem unsupported_operation_rejected (w : World) (args : Namespace)
    (op : PyVal) :
  args !! "operation" = Some op ->
  ((forall s, op = PyStr s ->
      ~ In s (operation_choices (parser_of fn_run_section_cmd))) ->
   spawned (run_section_cmd w args) = []
   /\ forall p, located w fn_run_section_cmd = Some p ->
        result (run_section_cmd w args) =
          Raise (ValueError
                   ("Unsupported section operation: " +:+ py_str op)))
  /\ ((forall s, op = PyStr s ->
         ~ In s (operation_choices (parser_of fn_run_subtask_cmd))) ->
      spawned (run_subtask_cmd w args) = []
      /\ forall p, located w fn_run_subtask_cmd = Some p ->
           result (run_subtask_cmd w args) =
             Raise (ValueError
                      ("Unsupported subtask operation: " +:+ py_str op))).
Proof.
  intros Hop. split.
  - intros H. destruct (not_choice_section op H) as (H1 & H2 & H3 & H4 & H5).
    split; [|intros p]; py_open; py_locate;
      repeat first [progress cbn -[relay] | py_rewrite | py_decide_hyp];
      solve [reflexivity | discriminate].
  - intros H. destruct (not_choice_subtask op H) as (H1 & H2 & H3 & H4).
    split; [|intros p]; py_open; py_locate;
      repeat first [progress cbn -[relay] | py_rewrite | py_decide_hyp];
      solve [reflexivity | discriminate].
Qed.

Lemma unsupported_operation_rejected_witness :
  result (run_subtask_cmd w_installed
            (<["operation" := PyStr "lists"]> ns_subtask_list_P1)) =
    Raise (ValueError "Unsupported subtask operation: lists").
Proof.
  refine (proj2 (proj2 (unsupported_operation_rejected w_installed
                          (<["operation" := PyStr "lists"]>
                             ns_subtask_list_P1)
                          (PyStr "lists") _) _)
            "/opt/app/subtaskctl" _).
  - reflexivity.
  - intros s [= <-]. vm_compute. intuition discriminate.
  - reflexivity.
Defined.

(** ** Where the arguments of the child come from *)

Ltac py_unname :=
  repeat match goal with
         | x := _ |- _ => subst x
         end.

Ltac py_element :=
  first
    [ left; eexists; split; [reflexivity | discriminate]
    | match goal with
      | H : ?args !! ?d = Some ?v |- vector_element _ ?args ?v =>
          right; exists d; split; [vm_compute; tauto|];
          split; [exact H|];
          first [ left; assumption
                | right; split; reflexivity ]
      end ].

Lemma handler_parts h w args :
  (located w h = None /\
   call_handler h w args =
     (locator_probes w h, Raise (FileNotFoundError (not_found_message w h))))
  \/ (exists p e, located w h = Some p /\ request_error h args e /\
        call_handler h w args = (locator_probes w h, Raise e))
  \/ (exists p rest, located w h = Some p /\
        Forall (vector_element h args) rest /\
        call_handler h w args =
          (locator_probes w h
             ++ trace (relay w (binary_name h) (PyStr p :: rest)),
           result (relay w (binary_name h) (PyStr p :: rest)))).
Proof.
  remember (call_handler h w args) as m eqn:E. symmetry in E. revert E.
  destruct h; py_open; name_literals;
    repeat (py_split; py_eval; try py_rewrite); intros <-.
  all: try (left; split; reflexivity).
  all: try (right; left; eexists _, _; split; [reflexivity|];
            split; [|reflexivity];
            first [ left; eexists; reflexivity
                  | right; py_unname;
                    match goal with
                    | H : ?a !! ?d = None |- _ =>
                        exists d; split; [vm_compute; tauto|];
                        split; [exact H | reflexivity]
                    end ]).
  all: right; right.
  all: match goal with
       | |- context [relay ?w ?n (PyStr ?p :: ?c)] =>
           exists p, c; split; [reflexivity|];
           split; [|destruct (relay w n (PyStr p :: c)); reflexivity]
       end.
  all: py_unname; subst; repeat (apply Forall_cons; split; [py_element|]);
    apply Forall_nil; exact I.
Qed.

Lemma as_argv_Forall (P : PyVal -> Prop) (Q : string -> Prop) vs :
  (forall s, P (PyStr s) -> Q s) ->
  forall l, as_argv vs = Some l -> Forall P vs -> Forall Q l.
Proof.
  intros HPQ. induction vs as [| v vs IH]; intros l.
  - intros [= <-] _. apply Forall_nil. exact I.
  - destruct v as [| s | f]; cbn; try discriminate.
    destruct (as_argv vs) as [l'|]; [|discriminate].
    intros [= <-] H. apply Forall_cons in H. destruct H as [Hv Hvs].
    apply Forall_cons. split; [exact (HPQ s Hv) | exact (IH l' eq_refl Hvs)].
Qed.

(** The argument vector of a run, with where its elements come from. *)
Lemma handler_spawned_parts h w args cmd :
  In cmd (spawned (call_handler h w args)) ->
  exists p rest l,
    located w h = Some p /\ Forall (vector_element h args) rest
    /\ as_argv rest = Some l /\ cmd = p :: l.
Proof.
  intros Hin.
  destruct (handler_parts h w args)
    as [[_ E] | [(p & e & _ & _ & E) | (p & rest & Hloc & Hel & E)]];
    rewrite E in Hin; unfold spawned, trace in Hin; cbn [fst] in Hin.
  - rewrite (spawned_of_probes _ (locator_probes_only w h)) in Hin.
    destruct Hin.
  - rewrite (spawned_of_probes _ (locator_probes_only w h)) in Hin.
    destruct Hin.
  - rewrite spawned_of_app,
      (spawned_of_probes _ (locator_probes_only w h)) in Hin.
    cbn [app] in Hin.
    pose proof (relay_spawned w (binary_name h) (PyStr p :: rest)) as Hr.
    unfold spawned, trace in Hr. rewrite Hr in Hin.
    destruct (as_argv (PyStr p :: rest)) as [argv|] eqn:Ha;
      [|destruct Hin].
    destruct Hin as [<- | []].
    destruct (as_argv_cons _ _ _ Ha) as (l & Hl & ->).
    exists p, rest, l. repeat split; assumption.
Qed.

(** X17.  No handler passes an empty argument to its binary, with one
    exception: [add] passes the title as it is, so an empty title goes
    through. *)
Theorem no_empty_argument (h : Handler) (w : World) (args : Namespace)
    (cmd : list string) :
  In cmd (spawned (call_handler h w args)) ->
  Forall (fun s => s = "" ->
            h = fn_run_add_cmd /\ args !! "title" = Some (PyStr ""))
         (tail cmd).
Proof.
  intros Hin.
  destruct (handler_spawned_parts h w args cmd Hin)
    as (p & rest & l & _ & Hel & Hl & ->).
  cbn [tail].
  refine (as_argv_Forall _ _ rest _ l Hl Hel).
  intros s [(s' & [= <-] & Hne) | (d & _ & Hd & [Ht | [-> ->]])] ->.
  - destruct (Hne eq_refl).
  - discriminate Ht.
  - split; [reflexivity | exact Hd].
Qed.

Lemma no_empty_argument_witness :
  Forall (fun s => s = "" ->
            fn_run_add_cmd = fn_run_add_cmd
            /\ <["title" := PyStr ""]> ns_add_list !! "title"
               = Some (PyStr ""))
         ["add"; ""; "--list"; "Groceries"].
Proof.
  apply (no_empty_argument fn_run_add_cmd w_installed
           (<["title" := PyStr ""]> ns_add_list)
           ["/opt/app/reminderctl"; "add"; ""; "--list"; "Groceries"]).
  vm_compute. left. reflexivity.
Defined.

(** ** Requests as [argparse] builds them *)

Lemma typed_lookup h args d :
  argparse_typed (parser_of h) args ->
  In d (dest <$> arguments (parser_of h)) ->
  exists v, args !! d = Some v
    /\ ((exists s, v = PyStr s)
        \/ (v = PyNone /\ ~ (h = fn_run_add_cmd /\ d = "title"))).
Proof.
  intros Ht Hin. unfold argparse_typed in Ht.
  destruct h; cbn in Ht, Hin; rewrite !Forall_cons in Ht; cbn in Ht;
    repeat match goal with
           | H : _ /\ _ |- _ => destruct H
           | H : _ \/ _ |- _ => destruct H
           | H : False |- _ => destruct H
           end;
    subst d;
    match goal with
    | |- context [args !! ?k] =>
        destruct (args !! k) as [[| s | f]|] eqn:E;
          try contradiction; eexists; (split; [reflexivity|]);
          first [ left; eexists; reflexivity
                | right; split; [reflexivity|];
                  intros [Hh Hd];
                  first [discriminate Hh | discriminate Hd | congruence] ]
    end.
Qed.

Lemma typed_vector h args rest :
  argparse_typed (parser_of h) args ->
  Forall (vector_element h args) rest ->
  exists l, as_argv rest = Some l.
Proof.
  intros Ht. induction rest as [| v rest IH]; intros H.
  - exists []. reflexivity.
  - apply Forall_cons in H. destruct H as [Hv Hrest].
    destruct (IH Hrest) as [l Hl].
    assert (Hs : exists s, v = PyStr s).
    { destruct Hv as [(s & -> & _) | (d & Hin & Hd & Hok)];
        [eexists; reflexivity|].
      destruct (typed_lookup h args d Ht Hin) as (v' & Hd' & Hv').
      rewrite Hd in Hd'. injection Hd' as <-.
      destruct Hv' as [Hs | [-> Hno]]; [exact Hs|].
      destruct Hok as [Htr | Htitle]; [discriminate Htr|].
      destruct (Hno Htitle). }
    destruct Hs as [s ->]. exists (s :: l). cbn. rewrite Hl. reflexivity.
Qed.

(** X18.  On a request as [argparse] builds it, a string for every
    positional and a string or [None] for every flag, a handler that
    raises raises a [FileNotFoundError], a [ValueError] (the
    [UnicodeDecodeError] of output that is not valid text is one), an
    [OSError] or a [CalledProcessError]: it never fails on a missing
    attribute or on an argument of the wrong type. *)
Theorem parsed_request_errors (h : Handler) (w : World) (args : Namespace)
    (e : Exn) :
  argparse_typed (parser_of h) args ->
  result (call_handler h w args) = Raise e ->
  operational_error e.
Proof.
  intros Ht.
  destruct (handler_parts h w args)
    as [[_ E] | [(p & e' & _ & He & E) | (p & rest & _ & Hel & E)]];
    rewrite E; unfold result; cbn [snd].
  - intros [= <-]. exact I.
  - intros [= <-]. destruct He as [[msg ->] | (d & Hin & Hd & ->)];
      [exact I|].
    destruct (typed_lookup h args d Ht Hin) as (v & Hv & _). congruence.
  - destruct (typed_vector h args rest Ht Hel) as [l Hl].
    pose proof (relay_cases w (binary_name h) (PyStr p :: rest)) as Hr.
    cbn [as_argv] in Hr. rewrite Hl in Hr.
    destruct (run_outcome w (p :: l)) as [rc out err|msg|msg|rc msg|msg];
      [destruct (rc =? 0)| | | |]; rewrite Hr; cbn [snd];
      first [discriminate | intros [= <-]; exact I].
Qed.

Lemma argparse_typed_subtask_list_P1 :
  argparse_typed subtask_sp ns_subtask_list_P1.
Proof.
  unfold argparse_typed. cbn [arguments subtask_sp].
  repeat (apply Forall_cons; split;
          [vm_compute; first [exact I | discriminate]|]).
  apply Forall_nil. exact I.
Qed.

Lemma parsed_request_errors_witness :
  operational_error
    (CalledProcessError 1 ["/opt/app/subtaskctl"; "list"; "P1"]
       "partial" "boom").
Proof.
  apply (parsed_request_errors fn_run_subtask_cmd w_failing
           ns_subtask_list_P1).
  - exact argparse_typed_subtask_list_P1.
  - reflexivity.
Defined.

(** Records that a flag is given, in the form the run tests it. *)
Ltac py_given H d :=
  let v := fresh "v" in
  let Hd := fresh "Hgiven" in
  let Hne := fresh "Hne" in
  destruct (H d ltac:(vm_compute; tauto)) as (v & Hd & Hne%String.eqb_neq).

(** X19.  Every operation among the choices of the [section] and
    [subtask] sub-parsers is carried out by the handler: with every flag
    given, and the binary located at [p], the handler runs one argument
    vector, which starts with [p] and the operation. *)
Theorem advertised_operations_supported (h : Handler) (w : World)
    (args : Namespace) (s p : string) :
  In s (operation_choices (parser_of h)) ->
  args !! "operation" = Some (PyStr s) ->
  (forall d, In d (flag_dests (parser_of h)) ->
     exists v, args !! d = Some (PyStr v) /\ v <> "") ->
  located w h = Some p ->
  exists l, spawned (call_handler h w args) = [p :: s :: l].
Proof.
  intros Hin Hop Hflags.
  destruct h; vm_compute in Hin;
    repeat match goal with
           | H : _ \/ _ |- _ => destruct H as [H | H]
           | H : False |- _ => destruct H
           end;
    subst s.
  all: try (py_given Hflags "list_id"; py_given Hflags "section_id";
            py_given Hflags "display_name").
  all: try (py_given Hflags "parent_id"; py_given Hflags "subtask_id";
            py_given Hflags "title"; py_given Hflags "new_title").
  all: clear Hflags; py_open; py_locate; py_go; intros [= <-];
    eexists; py_spawned.
Qed.

Lemma advertised_operations_supported_witness :
  exists l,
    spawned (run_section_cmd w_installed
               (<["section_id" := PyStr "S9"]> ns_section_create)) =
      [ "/opt/app/sectionctl" :: "create" :: l ].
Proof.
  apply (advertised_operations_supported fn_run_section_cmd w_installed
           (<["section_id" := PyStr "S9"]> ns_section_create)
           "create" "/opt/app/sectionctl").
  - vm_compute. tauto.
  - reflexivity.
  - intros d Hd. vm_compute in Hd.
    destruct Hd as [<- | [<- | [<- | []]]];
      eexists; (split; [reflexivity | discriminate]).
  - reflexivity.
Defined.

(** ** Where the binaries are looked for *)

Lemma list_ascii_of_string_append a b :
  list_ascii_of_string (a +:+ b) =
  list_ascii_of_string a ++ list_ascii_of_string b.
Proof.
  induction a as [| c a IH]; [reflexivity|].
  change (String c a +:+ b) with (String c (a +:+ b)).
  cbn [list_ascii_of_string]. rewrite IH. reflexivity.
Qed.

Lemma lstrip_all p l r :
  forallb p l = true -> lstrip p (l ++ r) = lstrip p r.
Proof.
  induction l as [| c l IH]; [reflexivity|].
  cbn. destruct (p c); [exact IH | discriminate].
Qed.

Lemma forallb_rev_true {A} (p : A -> bool) l :
  forallb p l = true -> forallb p (rev l) = true.
Proof.
  rewrite !forallb_forall. intros H x Hx. apply H, in_rev, Hx.
Qed.

Lemma no_sep_not_startswith n : no_sep n = true -> startswith_sep n = false.
Proof.
  unfold no_sep. destruct n as [| c n]; [reflexivity|].
  cbn. destruct (is_sep c); [discriminate | reflexivity].
Qed.

(** The last character of a path that does not end with a separator. *)
Lemma not_endswith_rev d :
  endswith_sep d = false -> d <> "" ->
  exists c l, rev (list_ascii_of_string d) = c :: l /\ is_sep c = false.
Proof.
  unfold endswith_sep. intros He Hd.
  destruct (rev (list_ascii_of_string d)) as [| c l] eqn:E.
  - exfalso. apply Hd.
    apply (f_equal (@rev ascii)) in E. rewrite rev_involutive in E.
    rewrite <- (string_of_list_ascii_of_string d), E. reflexivity.
  - exists c, l. split; [reflexivity | exact He].
Qed.

Lemma join_no_sep d n :
  no_sep n = true ->
  join d n = if String.eqb d "" || endswith_sep d then d +:+ n
             else d +:+ "/" +:+ n.
Proof.
  intros Hn. unfold join. rewrite (no_sep_not_startswith n Hn). reflexivity.
Qed.

(** [dirname] undoes [join] with a name. *)
Lemma dirname_join d n :
  endswith_sep d = false -> no_sep n = true -> dirname (join d n) = d.
Proof.
  intros Hd Hn. rewrite (join_no_sep d n Hn), Hd, orb_false_r.
  assert (Hrn : forallb (fun c => negb (is_sep c))
                  (rev (list_ascii_of_string n)) = true)
    by (apply forallb_rev_true; exact Hn).
  destruct (String.eqb d "") eqn:Hd0.
  - apply String.eqb_eq in Hd0. subst d.
    change ("" +:+ n) with n. unfold dirname, rstrip.
    rewrite <- (app_nil_r (rev (list_ascii_of_string n))),
      (lstrip_all _ _ [] Hrn).
    reflexivity.
  - apply String.eqb_neq in Hd0.
    destruct (not_endswith_rev d Hd Hd0) as (c & l & Hrev & Hc).
    unfold dirname, rstrip.
    rewrite !list_ascii_of_string_append.
    change (list_ascii_of_string "/") with ["/"%char].
    rewrite !rev_app_distr. cbn [rev app].
    rewrite <- app_assoc, (lstrip_all _ _ _ Hrn). cbn [app lstrip].
    change (negb (is_sep "/")) with false. cbv iota.
    cbn [rev]. rewrite rev_involutive.
    destruct (list_ascii_of_string d ++ ["/"%char]) as [| c0 l0] eqn:E;
      [destruct (list_ascii_of_string d); discriminate E|].
    rewrite <- E. clear E c0 l0.
    assert (Hall : forallb is_sep (list_ascii_of_string d ++ ["/"%char])
                   = false).
    { rewrite forallb_app.
      rewrite <- (rev_involutive (list_ascii_of_string d)), Hrev.
      cbn [rev]. rewrite forallb_app. cbn [forallb]. rewrite Hc.
      rewrite andb_false_r. reflexivity. }
    rewrite Hall, rev_app_distr. cbn [rev app lstrip].
    change (is_sep "/") with true. cbv iota.
    rewrite Hrev. cbn [lstrip]. rewrite Hc, <- Hrev, rev_involutive.
    apply string_of_list_ascii_of_string.
Qed.

(** A path built by [join] with a name does not end with a separator. *)
Lemma join_not_endswith d n :
  no_sep n = true -> n <> "" -> endswith_sep (join d n) = false.
Proof.
  intros Hn Hn0.
  assert (Hrn : forallb (fun c => negb (is_sep c))
                  (rev (list_ascii_of_string n)) = true)
    by (apply forallb_rev_true; exact Hn).
  assert (He : endswith_sep n = false).
  { unfold endswith_sep.
    destruct (rev (list_ascii_of_string n)) as [| c l]; [reflexivity|].
    cbn in Hrn. destruct (is_sep c); [discriminate | reflexivity]. }
  destruct (not_endswith_rev n He Hn0) as (c & l & Hrev & Hc).
  rewrite (join_no_sep d n Hn).
  destruct (String.eqb d "" || endswith_sep d); unfold endswith_sep;
    rewrite !list_ascii_of_string_append, !rev_app_distr, Hrev;
    cbn [app]; exact Hc.
Qed.

Lemma layout w h root pkg file :
  endswith_sep root = false ->
  no_sep pkg = true -> pkg <> "" -> no_sep file = true ->
  abspath_file w (module_of h) =
    join (join (join root pkg) "commands") file ->
  primary_path w h = join root (binary_name h)
  /\ fallback_path w h = join (join root pkg) (binary_name h).
Proof.
  intros Hr Hp Hp0 Hf Habs. unfold primary_path, fallback_path.
  rewrite Habs.
  rewrite (dirname_join _ file
             (join_not_endswith _ "commands" eq_refl ltac:(discriminate))
             Hf).
  rewrite (dirname_join _ "commands" (join_not_endswith _ pkg Hp Hp0)
             eq_refl).
  rewrite (dirname_join root pkg Hr Hp).
  split; reflexivity.
Qed.

(** X20.  For a command module stored as
    [root/pkg/commands/file], the handler looks for its binary at
    [root/<binary>] first, one level above the package, and, in
    [section] and [subtask], at [root/pkg/<binary>] next; the first
    thing every run does is to probe [root/<binary>]. *)
Theorem binaries_beside_the_package (w : World) (h : Handler)
    (root pkg file : string) :
  endswith_sep root = false ->
  no_sep pkg = true -> pkg <> "" -> no_sep file = true ->
  abspath_file w (module_of h) =
    join (join (join root pkg) "commands") file ->
  primary_path w h = join root (binary_name h)
  /\ fallback_path w h = join (join root pkg) (binary_name h)
  /\ forall args, exists t,
       trace (call_handler h w args) =
         EExists (join root (binary_name h)) :: t.
Proof.
  intros Hr Hp Hp0 Hf Habs.
  destruct (layout w h root pkg file Hr Hp Hp0 Hf Habs) as [H1 H2].
  split; [exact H1|]. split; [exact H2|].
  intros args. rewrite <- H1.
  destruct (handler_cases h w args)
    as [[_ E] | [(p & e & _ & _ & E) | (p & rest & _ & E)]];
    rewrite E; unfold trace; cbn [fst]; destruct h; cbn [locator_probes app];
    eexists; reflexivity.
Qed.

Lemma binaries_beside_the_package_witness :
  primary_path w_installed fn_run_subtask_cmd = "/opt/app/subtaskctl"
  /\ fallback_path w_installed fn_run_subtask_cmd =
       "/opt/app/remindctl/subtaskctl".
Proof.
  destruct (binaries_beside_the_package w_installed fn_run_subtask_cmd
              "/opt/app" "remindctl" "subtask.py"
              eq_refl eq_refl ltac:(discriminate) eq_refl eq_refl)
    as (H1 & H2 & _).
  split; [exact H1 | exact H2].
Defined.

(** ** The route from the command line to [run_subtask_cmd] *)

(** X21.  [subtask] on the command line is routed to [run_subtask_cmd]:
    when the sub-parser accepts the remaining tokens, [main] runs the
    handler on the parsed attributes and turns any exception of it into
    "Error: ..." on standard error and exit status 1; the [command] and
    [func] attributes that [main]'s parser adds change nothing for the
    handler. *)
Theorem main_routes_subtask (w : World) (rest : list string)
    (t : list Event) (attrs : Namespace) :
  argparse_subcommand w subtask_sp rest = (t, Ok attrs) ->
  attrs !! "command" = None -> attrs !! "func" = None ->
  let m := try_except (run_subtask_cmd w attrs) (report_error w) in
  main w ("subtask" :: rest) = (t ++ trace m, result m)
  /\ (exit_status (main w ("subtask" :: rest)) = 0
      \/ exit_status (main w ("subtask" :: rest)) = 1).
Proof.
  intros Hparse Hc Hf m.
  set (ns := attrs ∪ defaults subtask_sp ∪ {[ "command" := PyStr "subtask" ]}).
  assert (Hnc : ns !! "command" = Some (PyStr "subtask")).
  { unfold ns. rewrite !lookup_union, Hc. reflexivity. }
  assert (Hnf : ns !! "func" = Some (PyFunc fn_run_subtask_cmd)).
  { unfold ns. rewrite !lookup_union, Hf. reflexivity. }
  assert (Hframe : run_subtask_cmd w ns = run_subtask_cmd w attrs).
  { apply (handler_frame fn_run_subtask_cmd w). intros a Ha.
    unfold ns. rewrite !lookup_union.
    cbn in Ha.
    repeat match goal with
           | H : _ \/ _ |- _ => destruct H as [H | H]
           | H : False |- _ => destruct H
           end;
      subst a; cbn [dest];
      match goal with
      | |- context [attrs !! ?k] => destruct (attrs !! k)
      end; reflexivity. }
  assert (Hd : dispatch w ns = m).
  { rewrite (dispatch_handler w ns (PyStr "subtask") fn_run_subtask_cmd
               Hnc ltac:(discriminate) Hnf).
    cbn [call_handler]. rewrite Hframe. reflexivity. }
  assert (Hmain : main w ("subtask" :: rest) = (t ++ trace m, result m)).
  { unfold main, parse_args, subtask_parser.
    change (String.eqb "subtask" "--version") with false.
    change (String.eqb "subtask" "-h") with false.
    change (String.eqb "subtask" "--help") with false.
    change (option_like "subtask") with false.
    cbn [orb]. rewrite lookup_insert_eq.
    rewrite Hparse. cbn [bind ret app].
    change (attrs ∪ defaults subtask_sp ∪ {[ "command" := PyStr "subtask" ]})
      with ns.
    rewrite Hd. destruct m as [tm rm]. cbn [trace result fst snd].
    rewrite app_nil_r. reflexivity. }
  split; [exact Hmain|]. rewrite Hmain.
  destruct (handler_outcome fn_run_subtask_cmd w attrs) as [_ H].
  cbn [call_handler] in H. unfold result in H.
  subst m. unfold exit_status, result. cbn [snd].
  destruct (run_subtask_cmd w attrs) as [t' [u|e]]; cbn [snd] in H |- *.
  - left. reflexivity.
  - destruct H as [He _]. unfold try_except, report_error. rewrite He.
    right. reflexivity.
Qed.

Lemma main_routes_subtask_witness :
  main w_parsing ["subtask"; "list"; "--parent-id"; "P1"] =
    ([EExists "/opt/app/subtaskctl"; EExists "/opt/app/subtaskctl";
      ESubprocessRun ["/opt/app/subtaskctl"; "list"; "P1"];
      EPrint Stdout "done"],
     Ok tt).
Proof.
  refine (proj1 (main_routes_subtask w_parsing
                   ["list"; "--parent-id"; "P1"] [] attrs_subtask_list_P1
                   _ _ _)); reflexivity.
Defined.
